(** * ClassPulse: scripts/seed_student_responses.py

    A shallow embedding of the seeding script and the properties its
    specification states about it.

    The script talks to three things outside itself: Python's global random
    generator, the ClassPulse backend (through httpx) and the clock
    (time.sleep).  They are gathered in a [world]; the script is a function
    of its parsed arguments and of the world, returning how the process
    ended together with everything it did (requests, printed lines, pauses),
    in order. *)

From Stdlib Require Import ZArith QArith Ascii.
From stdpp Require Import base tactics option list strings gmap pretty.

Local Open Scope Z_scope.

(** ** Python strings

    A Python [str] is modelled by the UTF-8 encoding of its text, so that an
    ASCII character is one [ascii] and every other code point is a lead byte
    followed by continuation bytes (10xxxxxx).  Slicing and [len] count code
    points, as Python does. *)

Module Str.

Definition nl : string := String (ascii_of_nat 10) "".

(** [bool(s)]: a string is true when it is not empty. *)
Definition truthy (s : string) : bool :=
  match s with "" => false | String _ _ => true end.

Definition is_continuation (c : ascii) : bool :=
  let n := nat_of_ascii c in (128 <=? n)%nat && (n <? 192)%nat.

(** The continuation bytes [s] starts with, and what follows them. *)
Fixpoint span_continuation (s : string) : string * string :=
  match s with
  | "" => ("", "")
  | String c s' =>
      if is_continuation c
      then let '(k, r) := span_continuation s' in (String c k, r)
      else ("", s)
  end.

(** [s[0]] and [s[1:]]; [None] stands for the IndexError of [s[0]]. *)
Definition uncons (s : string) : option (string * string) :=
  match s with
  | "" => None
  | String c s' => let '(k, r) := span_continuation s' in Some (String c k, r)
  end.

(** [len(s)] *)
Fixpoint len (s : string) : nat :=
  match s with
  | "" => 0
  | String c s' => if is_continuation c then len s' else S (len s')
  end%nat.

(** [s[:n]] for a literal [n >= 0]. *)
Fixpoint take (n : nat) (s : string) : string :=
  match s with
  | "" => ""
  | String c s' =>
      if is_continuation c then String c (take n s')
      else match n with
           | O => ""
           | S n' => String c (take n' s')
           end
  end.

(** [str.lower] of one character.  Only the ASCII letters are mapped; the
    script lowers the first character of a composed answer, which is the
    ASCII capital some starter phrase begins with. *)
Definition lower (ch : string) : string :=
  match ch with
  | String c "" =>
      let n := nat_of_ascii c in
      if (65 <=? n)%nat && (n <=? 90)%nat
      then String (ascii_of_nat (n + 32)) "" else ch
  | _ => ch
  end.

(** [s.rstrip(chars)] and [s.lstrip(chars)], the characters to drop given
    as a predicate. *)
Fixpoint rstrip (p : ascii → bool) (s : string) : string :=
  match s with
  | "" => ""
  | String c s' =>
      match rstrip p s' with
      | "" => if p c then "" else String c ""
      | r => String c r
      end
  end.

Fixpoint lstrip (p : ascii → bool) (s : string) : string :=
  match s with
  | "" => ""
  | String c s' => if p c then lstrip p s' else s
  end.

Definition is_slash (c : ascii) : bool := bool_decide (c = "/"%char).

(** The ASCII characters [str.strip()] removes. *)
Definition is_space (c : ascii) : bool :=
  let n := nat_of_ascii c in
  ((9 <=? n)%nat && (n <=? 13)%nat) || ((28 <=? n)%nat && (n <=? 32)%nat).

Definition strip (s : string) : string := lstrip is_space (rstrip is_space s).

(** [sep.join(parts)] *)
Fixpoint join (sep : string) (parts : list string) : string :=
  match parts with
  | [] => ""
  | [p] => p
  | p :: ps => p +:+ sep +:+ join sep ps
  end.

Definition starts_with (pre s : string) : bool := String.prefix pre s.

(** [sub in s] *)
Fixpoint contains (sub s : string) : bool :=
  String.prefix sub s ||
  match s with
  | "" => false
  | String _ s' => contains sub s'
  end.

End Str.

(** ** Fake data *)

Definition FIRST_NAMES : list string :=
  [ "Alex"; "Jordan"; "Taylor"; "Morgan"; "Casey"; "Riley"; "Avery"; "Quinn";
    "Sam"; "Jamie"; "Drew"; "Blake"; "Cameron"; "Skyler"; "Reese"; "Parker";
    "Emma"; "Liam"; "Olivia"; "Noah"; "Ava"; "Ethan"; "Sophia"; "Mason";
    "Isabella"; "William"; "Mia"; "James"; "Charlotte"; "Benjamin" ].

Definition LAST_NAMES : list string :=
  [ "Smith"; "Johnson"; "Williams"; "Brown"; "Jones"; "Garcia"; "Miller";
    "Davis"; "Rodriguez"; "Martinez"; "Wilson"; "Anderson"; "Taylor";
    "Thomas"; "Moore"; "Jackson"; "Martin"; "Lee"; "Thompson"; "White" ].

Definition ANSWER_STARTERS : list string :=
  [ "I think that";
    "In my opinion,";
    "From what I've learned,";
    "Based on my experience,";
    "I believe";
    "It seems to me that";
    "I would say that";
    "One thing I've noticed is";
    "Personally, I feel";
    "I've found that" ].

Definition ANSWER_BODIES : list string :=
  [ "the key is to consider multiple perspectives and stay open-minded.";
    "we need to balance theory with practical application.";
    "collaboration and communication are essential for success.";
    "it helps to break things down into smaller, manageable steps.";
    "understanding the fundamentals makes everything else easier.";
    "there's often more than one right approach to a problem.";
    "feedback and iteration lead to better outcomes.";
    "context matters a lot—what works in one situation may not in another.";
    "we should question assumptions and look for evidence.";
    "connecting ideas across different areas can lead to new insights.";
    "practice and repetition build confidence over time.";
    "asking questions is just as important as having answers.";
    "diversity of thought strengthens the overall result.";
    "we need to be mindful of unintended consequences.";
    "simplicity often beats complexity when possible." ].

(** Some closers are empty for variety. *)
Definition ANSWER_CLOSERS : list string :=
  [ "That's my take on it.";
    "Would love to hear others' thoughts.";
    "Curious what the rest of the class thinks.";
    "Hope this adds to the discussion.";
    "";
    "";
    "" ].

(** The [refs] of [random_answer]. *)
Definition refs : list string :=
  [ "Regarding this, "; "On this topic, "; "For this question, " ].

(** ** The world outside the script *)

Inductive method := GET | POST.

(** One httpx call: the verb, the URL and the [json=] argument (a flat
    object of strings; empty for a GET). *)
Record request := Request {
  req_method : method;
  req_url : string;
  req_json : list (string * string);
}.

(** What [resp.json()] makes of a body: the JSON object it holds (its
    fields are strings, as the backend declares them), or the
    [json.JSONDecodeError] that the decoder raises on a body that is not
    JSON, with its [str()] (it says what was expected and where:
    "Expecting value: line 1 column 1 (char 0)" for an empty body or a page
    of text). *)
Inductive body :=
  | Json (data : gmap string string)
  | NotJson (msg : string).

(** What a call comes back with: a response (status code, body text, and
    what [resp.json()] makes of the body), or a transport failure
    (connection refused, timeout, ...), which httpx raises as an exception
    of the given class and message. *)
Inductive reply :=
  | Response (status_code : Z) (text : string) (json : body)
  | TransportFailure (cls msg : string).

(** The exceptions the script can meet.  [httpx.HTTPStatusError] is the one
    it tells apart; every other one is a subclass of [Exception], kept with
    its class name and its [str()]. *)
Inductive exn :=
  | HTTPStatusError (status_code : Z) (text : string)
  | Exception (cls msg : string).

(** [--delay] is parsed by [float]. *)
Inductive pyfloat :=
  | Finite (q : Q)
  | Infinite (negative : bool)
  | NaN.

(** [bool(d)]: every float but zero is true. *)
Definition float_truthy (d : pyfloat) : bool :=
  match d with
  | Finite q => negb (Qnum q =? 0)
  | _ => true
  end.

Record world := World {
  (** the successive outputs of the random generator, one for each call of
      [random.choice] or [random.random] *)
  tape : nat → N;
  (** the reply to the n-th call of the run (counted from 0) *)
  backend : nat → request → reply;
  (** what [time.sleep(d)] raises, if anything (Python refuses negative
      and non-finite lengths) *)
  clock : pyfloat → option exn;
}.

(** What the process does, in order. *)
Inductive event :=
  | Sent (r : request)
  | Printed (line : string)
  | Slept (d : pyfloat).

(** ** The script's monad

    State: how many random outputs were consumed and how many calls were
    made.  A computation ends by returning, by raising, by [sys.exit], or
    it is still redrawing names when its budget of redraws is spent
    ([Spin], see [main]).  The events are those of this computation
    alone. *)

Record pstate := PState { draws : nat; calls : nat }.

Inductive outcome (A : Type) :=
  | Ret (a : A)
  | Raise (e : exn)
  | SysExit (code : Z)
  | Spin.
Arguments Ret {A} a.
Arguments Raise {A} e.
Arguments SysExit {A} code.
Arguments Spin {A}.

Definition M (A : Type) : Type :=
  world → pstate → outcome A * pstate * list event.

Definition ret {A} (a : A) : M A := λ _ s, (Ret a, s, []).

Definition bind {A B} (m : M A) (f : A → M B) : M B := λ w s,
  match m w s with
  | (Ret a, s', t) => let '(o, s'', t') := f a w s' in (o, s'', t ++ t')
  | (Raise e, s', t) => (Raise e, s', t)
  | (SysExit c, s', t) => (SysExit c, s', t)
  | (Spin, s', t) => (Spin, s', t)
  end.

#[export] Instance M_ret : MRet M := @ret.
#[export] Instance M_bind : MBind M := λ A B f m, bind m f.

Definition raise {A} (e : exn) : M A := λ _ s, (Raise e, s, []).
Definition sys_exit {A} (code : Z) : M A := λ _ s, (SysExit code, s, []).
Definition spin {A} : M A := λ _ s, (Spin, s, []).

(** [try: body except <those the handler takes>: handler].  An exception
    the handler does not take, [sys.exit] and [Spin] pass through. *)
Definition try_except {A} (body : M A) (handler : exn → option (M A)) : M A :=
  λ w s,
  match body w s with
  | (Raise e, s', t) =>
      match handler e with
      | Some h => let '(o, s'', t') := h w s' in (o, s'', t ++ t')
      | None => (Raise e, s', t)
      end
  | r => r
  end.

Definition print (line : string) : M unit := λ _ s, (Ret tt, s, [Printed line]).

(** ** random *)

Definition draw : M N := λ w s,
  (Ret (tape w (draws s)), PState (S (draws s)) (calls s), []).

(** [random.choice(seq)] is [seq[randbelow(len(seq))]]. *)
Definition choice (seq : list string) : M string :=
  r ← draw;
  match seq !! N.to_nat (r `mod` N.of_nat (length seq))%N with
  | Some x => mret x
  | None => raise (Exception "IndexError" "Cannot choose from an empty sequence")
  end.

(** [random.random()] is k / 2^53 for a uniform k below 2^53; the
    numerator stands for the float. *)
Definition random : M N := r ← draw; mret (r `mod` 2 ^ 53)%N.

(** [x < 0.3] for x = k / 2^53: the literal 0.3 is the double
    5404319552844595 / 2^54. *)
Definition below_0_3 (k : N) : bool := (2 * k <? 5404319552844595)%N.

(** ** The generators *)

(** Generate a random student name. *)
Definition random_student_name : M string :=
  first ← choice FIRST_NAMES;
  last ← choice LAST_NAMES;
  mret (first +:+ " " +:+ last).

(** The text composed from the three drawn parts (line 107). *)
Definition compose (parts : list string) : string :=
  Str.strip (Str.join " " (filter (λ p, Str.truthy p = true) parts)).

(** Generate a plausible random answer. Optionally use question for context. *)
Definition random_answer (question : string) : M string :=
  starter ← choice ANSWER_STARTERS;
  body ← choice ANSWER_BODIES;
  closer ← choice ANSWER_CLOSERS;
  let answer := compose [starter; body; closer] in
  if Str.truthy question then
    x ← random;
    if below_0_3 x then
      ref ← choice refs;
      match Str.uncons answer with
      | Some (c, rest) => mret (ref +:+ Str.lower c +:+ rest)
      | None => raise (Exception "IndexError" "string index out of range")
      end
    else mret answer
  else mret answer.

(** ** httpx

    The [timeout=] argument of a call is left out: it only decides when a
    transport failure is raised, which is the world's to say. *)

Record response := Resp {
  status_code : Z;
  text : string;
  json_body : body;
}.

(** The call itself: the request goes out, the reply comes back or the
    transport failure is raised. *)
Definition httpx_request (r : request) : M response := λ w s,
  let s' := PState (draws s) (S (calls s)) in
  match backend w (calls s) r with
  | Response c t j => (Ret (Resp c t j), s', [Sent r])
  | TransportFailure cls msg => (Raise (Exception cls msg), s', [Sent r])
  end.

Definition httpx_get (url : string) : M response :=
  httpx_request (Request GET url []).

Definition httpx_post (url : string) (json : list (string * string)) : M response :=
  httpx_request (Request POST url json).

Definition is_success (code : Z) : bool := (200 <=? code) && (code <=? 299).

(** [resp.raise_for_status()] *)
Definition raise_for_status (resp : response) : M unit :=
  if is_success (status_code resp) then mret tt
  else raise (HTTPStatusError (status_code resp) (text resp)).

(** [resp.json()] *)
Definition resp_json (resp : response) : M (gmap string string) :=
  match json_body resp with
  | Json data => mret data
  | NotJson msg => raise (Exception "JSONDecodeError" msg)
  end.

(** [data[key]] *)
Definition getitem (data : gmap string string) (key : string) : M string :=
  match data !! key with
  | Some v => mret v
  | None => raise (Exception "KeyError" ("'" +:+ key +:+ "'"))
  end.

(** [data.get(key, "")] *)
Definition get_or_empty (data : gmap string string) (key : string) : string :=
  default "" (data !! key).

(** [bool(x)] for an optional string: [None] and the empty string are false. *)
Definition opt_truthy (x : option string) : bool :=
  match x with
  | Some s => Str.truthy s
  | None => false
  end.

Definition admin_link_of (frontend_url session_id admin_token : string) : string :=
  frontend_url +:+ "/session/" +:+ session_id +:+ "/admin?token=" +:+ admin_token.

(** Create a new session and return session info. *)
Definition create_session (base_url question : string) (frontend_url : option string)
    : M (gmap string string) :=
  resp ← httpx_post (base_url +:+ "/api/sessions") [("question", question)];
  raise_for_status resp;;
  data ← resp_json resp;
  sid ← getitem data "session_id";
  print ("Created session: " +:+ sid);;
  student_url ← getitem data "student_url";
  print ("  Student URL: " +:+ student_url);;
  admin_link ←
    (if opt_truthy frontend_url then
       sid ← getitem data "session_id";
       admin_token ← getitem data "admin_token";
       mret (admin_link_of (default "" frontend_url) sid admin_token)
     else getitem data "admin_url");
  print ("  Admin URL:   " +:+ admin_link);;
  mret data.

(** Submit a single student response. *)
Definition submit_response (base_url session_id student_name answer : string)
    : M (gmap string string) :=
  resp ← httpx_post (base_url +:+ "/api/sessions/" +:+ session_id +:+ "/responses")
           [("student_name", student_name); ("answer", answer)];
  raise_for_status resp;;
  resp_json resp.

(** [time.sleep(d)] *)
Definition time_sleep (d : pyfloat) : M unit := λ w s,
  match clock w d with
  | Some e => (Raise e, s, [])
  | None => (Ret tt, s, [Slept d])
  end.

(** ** main *)

(** The parsed command line ([args]). *)
Record args := Args {
  base_url : string;             (* --base-url, default http://localhost:8000 *)
  frontend_url : option string;  (* --frontend-url, default None *)
  session_id : option string;    (* --session-id, default None *)
  question : string;             (* --question *)
  count : Z;                     (* --count, default 10 *)
  delay : pyfloat;               (* --delay, default 0.5 *)
  no_delay : bool;               (* --no-delay *)
}.

(** Lines 186-188. *)
Definition norm_base_url (a : args) : string :=
  Str.rstrip Str.is_slash (base_url a).

Definition norm_frontend_url (a : args) : string :=
  Str.rstrip Str.is_slash
    (if opt_truthy (frontend_url a) then default "" (frontend_url a)
     else norm_base_url a).

Definition effective_delay (a : args) : pyfloat :=
  if no_delay a then Finite 0 else delay a.

(** What the first part of [main] leaves in its variables. *)
Record session := Session {
  ses_id : string;
  ses_question : string;
  ses_admin_url : option string;
}.

(** # Get or create session (lines 190-209) *)
Definition get_or_create_session (a : args) : M session :=
  let base_url := norm_base_url a in
  let frontend_url := norm_frontend_url a in
  if opt_truthy (session_id a) then
    let session_id := default "" (session_id a) in
    try_except
      (resp ← httpx_get (base_url +:+ "/api/sessions/" +:+ session_id);
       raise_for_status resp;;
       data ← resp_json resp;
       let question := get_or_empty data "question" in
       print ("Using existing session: " +:+ session_id);;
       print ("  Question: " +:+ Str.take 60 question +:+
              (if (60 <? Str.len question)%nat then "..." else ""));;
       mret (Session session_id question None))
      (λ e, match e with
            | HTTPStatusError code _ =>
                Some (print ("Error: Session " +:+ session_id +:+ " not found (" +:+
                             pretty code +:+ ")");;
                      sys_exit 1)
            | Exception _ _ => None
            end)
  else
    data ← create_session base_url (question a) (Some frontend_url);
    session_id ← getitem data "session_id";
    let admin_token := get_or_empty data "admin_token" in
    let admin_url :=
      if Str.truthy admin_token
      then Some (admin_link_of frontend_url session_id admin_token) else None in
    mret (Session session_id (question a) admin_url).

Section SubmitLoop.

  (** How many times one [while name in used_names] loop may redraw before
      the run is reported as still spinning. *)
  Variable budget : nat.
  Variable a : args.
  Variable ses : session.

  (** Lines 216-218. *)
Fixpoint redraw (n : nat) (used_names : gset string) (name : string) : M string :=
  if decide (name ∈ used_names) then
    match n with
    | O => spin
    | S n' => name' ← random_student_name; redraw n' used_names name'
    end
  else mret name.

Definition tag (i : Z) : string :=
  "  [" +:+ pretty (i + 1) +:+ "/" +:+ pretty (count a) +:+ "] ".

  (** Lines 222-228. *)
Definition submit_and_report (i : Z) (name answer : string) : M unit :=
  try_except
    (result ← submit_response (norm_base_url a) (ses_id ses) name answer;
     print (tag i +:+ name +:+ ": " +:+ Str.take 50 answer +:+ "..."))
    (λ e, Some match e with
               | HTTPStatusError code text =>
                   print (tag i +:+ "FAILED: " +:+ pretty code +:+ " - " +:+ text)
               | Exception _ msg =>
                   print (tag i +:+ "ERROR: " +:+ msg)
               end).

  (** Lines 230-231. *)
Definition pause (i : Z) : M unit :=
  if float_truthy (effective_delay a) && (i <? count a - 1)
  then time_sleep (effective_delay a) else mret tt.

  (** The body of [for i in range(args.count)], returning [used_names]. *)
Definition iteration (i : Z) (used_names : gset string) : M (gset string) :=
  name ← random_student_name;
  name ← redraw budget used_names name;
  let used_names := {[name]} ∪ used_names in
  answer ← random_answer (ses_question ses);
  submit_and_report i name answer;;
  pause i;;
  mret used_names.

  (** The iterations [i, i+1, ...], [todo] of them. *)
Fixpoint submit_loop (todo : nat) (i : Z) (used_names : gset string) : M unit :=
  match todo with
  | O => mret tt
  | S todo' =>
      used_names ← iteration i used_names;
      submit_loop todo' (i + 1) used_names
  end.

  (** Lines 233-237. *)
Definition summary : M unit :=
  print (Str.nl +:+ "Done! Open the admin dashboard to see the summarized themes.");;
  if opt_truthy (ses_admin_url ses)
  then print ("  " +:+ default "" (ses_admin_url ses))
  else print ("  " +:+ norm_frontend_url a +:+ "/session/" +:+ ses_id ses +:+
              "/admin?token=<your-admin-token>").

  (** # Submit fake responses (lines 211-237) *)
Definition submit_responses : M unit :=
  print (Str.nl +:+ "Submitting " +:+ pretty (count a) +:+ " fake student responses...");;
  submit_loop (Z.to_nat (count a)) 0 ∅;;
  summary.

End SubmitLoop.

Definition main (budget : nat) (a : args) : M unit :=
  ses ← get_or_create_session a;
  submit_responses budget a ses.

(** A run of the script from a fresh process. *)
Definition run (budget : nat) (a : args) (w : world) : outcome unit * list event :=
  let '(o, _, t) := main budget a w (PState 0 0) in (o, t).

(** The exit status of the process, once it has ended: 0 when [main]
    returns, the argument of [sys.exit], 1 after an uncaught exception. *)
Definition exit_status (o : outcome unit) : option Z :=
  match o with
  | Ret _ => Some 0
  | SysExit c => Some c
  | Raise _ => Some 1
  | Spin => None
  end.

(** ** Reading a run

    The definitions of this part only describe: which events are
    submissions and pauses, what the generators return at a given position
    of the random outputs, which line reports which reply.  The facts proved
    below connect each of them to the code above. *)

(** The element of [seq] that [random.choice] returns on the output [r]. *)
Definition pick (seq : list string) (r : N) : string :=
  default "" (seq !! N.to_nat (r `mod` N.of_nat (length seq))%N).

(** The name drawn when the generator stands at output [p]. *)
Definition name_at (w : world) (p : nat) : string :=
  pick FIRST_NAMES (tape w p) +:+ " " +:+ pick LAST_NAMES (tape w (S p)).

(** The three-part text composed when the generator stands at [p]. *)
Definition plain_at (w : world) (p : nat) : string :=
  compose [ pick ANSWER_STARTERS (tape w p);
            pick ANSWER_BODIES (tape w (S p));
            pick ANSWER_CLOSERS (tape w (S (S p))) ].

(** The value of [random.random()] (its numerator) drawn fourth. *)
Definition flavour_draw (w : world) (p : nat) : N :=
  (tape w (3 + p)%nat `mod` 2 ^ 53)%N.

Definition has_ref_prefix (answer : string) : bool :=
  existsb (λ r, Str.starts_with r answer) refs.

(** [answer[0].lower() + answer[1:]] *)
Definition lower_first (answer : string) : string :=
  match Str.uncons answer with
  | Some (c, rest) => Str.lower c +:+ rest
  | None => ""
  end.

(** A submission call is a POST that carries a student name. *)
Definition student_name_of (e : event) : option string :=
  match e with
  | Sent (Request POST _ body) => snd <$> find (λ kv, bool_decide (kv.1 = "student_name")) body
  | _ => None
  end.

Definition is_submission (e : event) : bool := bool_decide (is_Some (student_name_of e)).

Definition submitted_names (t : list event) : list string :=
  omap student_name_of t.

Definition submissions (t : list event) : nat := length (submitted_names t).

Definition is_pause (e : event) : bool :=
  match e with Slept _ => true | _ => false end.

Definition printed (t : list event) : list string :=
  omap (λ e, match e with Printed l => Some l | _ => None end) t.

(** The line printed for one submission, by what came back. *)
Definition report_line (a : args) (i : Z) (name answer : string) (r : reply) : string :=
  match r with
  | Response code text json =>
      if is_success code then
        match json with
        | Json _ => tag a i +:+ name +:+ ": " +:+ Str.take 50 answer +:+ "..."
        | NotJson msg => tag a i +:+ "ERROR: " +:+ msg
        end
      else tag a i +:+ "FAILED: " +:+ pretty code +:+ " - " +:+ text
  | TransportFailure _ msg => tag a i +:+ "ERROR: " +:+ msg
  end.

(** A call fails: an HTTP error response or an exception. *)
Definition failed (r : reply) : bool :=
  match r with
  | Response code _ json =>
      negb (is_success code) || match json with Json _ => false | NotJson _ => true end
  | TransportFailure _ _ => true
  end.

Definition submit_request (a : args) (ses : session) (name answer : string) : request :=
  Request POST (norm_base_url a +:+ "/api/sessions/" +:+ ses_id ses +:+ "/responses")
    [("student_name", name); ("answer", answer)].

(** Does the answer drawn at [p] get the question-specific flavour? *)
Definition flavoured (question : string) (w : world) (p : nat) : bool :=
  Str.truthy question && below_0_3 (flavour_draw w p).

(** The answer [random_answer] returns when the generator stands at [p],
    and the number of outputs it consumes. *)
Definition answer_at (question : string) (w : world) (p : nat) : string :=
  if flavoured question w p
  then pick refs (tape w (4 + p)%nat) +:+ lower_first (plain_at w p)
  else plain_at w p.

Definition answer_draws (question : string) (w : world) (p : nat) : nat :=
  if Str.truthy question then (if below_0_3 (flavour_draw w p) then 5 else 4)%nat
  else 3%nat.

(** A check of every text the three pools compose. *)
Definition all_plain (P : string → bool) : bool :=
  forallb (λ st, forallb (λ bo, forallb (λ cl, P (compose [st; bo; cl]))
    ANSWER_CLOSERS) ANSWER_BODIES) ANSWER_STARTERS.

(** What the body of the loop does for one submission: the call and the
    line about it, then the pause (lines 230-231). *)
Definition attempt (a : args) (ses : session) (w : world) (c : nat) (i : Z)
    (name answer : string) : list event :=
  [ Sent (submit_request a ses name answer);
    Printed (report_line a i name answer (backend w c (submit_request a ses name answer))) ].

Definition pauses_after (a : args) (i : Z) : list event :=
  if float_truthy (effective_delay a) && (i <? count a - 1)
  then [Slept (effective_delay a)] else [].

(** The line printed before the loop (line 212) and the lines printed
    after it (lines 233-237). *)
Definition header (a : args) : event :=
  Printed (Str.nl +:+ "Submitting " +:+ pretty (count a) +:+ " fake student responses...").

Definition done_line : string :=
  Str.nl +:+ "Done! Open the admin dashboard to see the summarized themes.".

Definition link_line (a : args) (ses : session) : string :=
  if opt_truthy (ses_admin_url ses)
  then "  " +:+ default "" (ses_admin_url ses)
  else "  " +:+ norm_frontend_url a +:+ "/session/" +:+ ses_id ses +:+
       "/admin?token=<your-admin-token>".

Definition summary_lines (a : args) (ses : session) : list event :=
  [ Printed done_line; Printed (link_line a ses) ].

Definition pauses (t : list event) : list event := filter (λ e, is_pause e = true) t.

(** What happens after the [n]-th submission call. *)
Fixpoint after_submissions (n : nat) (t : list event) : list event :=
  match n, t with
  | O, _ => t
  | S _, [] => []
  | S n', e :: t' =>
      if is_submission e then after_submissions n' t' else after_submissions n t'
  end.

(** The arguments with [--no-delay] given. *)
Definition with_no_delay (a : args) : args :=
  Args (base_url a) (frontend_url a) (session_id a) (question a) (count a) (delay a) true.

(** Every name the two pools compose. *)
Definition all_names : list string :=
  f ← FIRST_NAMES; l ← LAST_NAMES; [f +:+ " " +:+ l].

(** The random generator keeps supplying new names: wherever it stands,
    the first draw or one of the next [n] redraws gives a name outside any
    set of fewer than [limit] names.  (No generator does so for a limit
    above the 600 names there are, see [supplies_fresh_capacity].) *)
Definition supplies_fresh (n limit : nat) (w : world) : Prop :=
  ∀ (p : nat) (used : gset string),
    (size used < limit)%nat → ∃ k, (k ≤ n)%nat ∧ name_at w (2 * k + p) ∉ used.

(** The pause, when there is one, elapses: [time.sleep] does not raise. *)
Definition pause_elapses (a : args) (w : world) : Prop :=
  float_truthy (effective_delay a) = true → clock w (effective_delay a) = None.

(** A line that reports a failed submission of iteration [i] (counted
    from 0, printed as i + 1). *)
Definition is_failure_line (a : args) (i : Z) (line : string) : Prop :=
  ∃ detail, line = tag a i +:+ "FAILED: " +:+ detail ∨ line = tag a i +:+ "ERROR: " +:+ detail.

(** Do the two pools compose a name in one way only? *)
Definition names_unambiguous : bool :=
  forallb (λ f, forallb (λ l, forallb (λ f', forallb (λ l',
    implb (String.eqb (f +:+ " " +:+ l) (f' +:+ " " +:+ l'))
          (String.eqb f f' && String.eqb l l'))
    LAST_NAMES) FIRST_NAMES) LAST_NAMES) FIRST_NAMES.

(** ** An example world

    A generator whose n-th output is n, a backend that creates session
    k7f2m9qa, answers the second submission with a 500 and accepts the
    others, and Python's clock. *)

(** What the decoder says of a body that does not begin like JSON. *)
Definition expecting_value : string := "Expecting value: line 1 column 1 (char 0)".

Definition ex_session_info : gmap string string :=
  {[ "session_id" := "k7f2m9qa";
     "student_url" := "http://localhost:5173/session/k7f2m9qa";
     "admin_url" := "http://localhost:5173/session/k7f2m9qa/admin?token=tok";
     "admin_token" := "tok" ]}.

Definition ex_backend (n : nat) (r : request) : reply :=
  match n with
  | 0%nat => Response 200 "" (Json ex_session_info)
  | 2%nat => Response 500 "Internal Server Error" (NotJson expecting_value)
  | _ => Response 201 "" (Json ∅)
  end.

(** [time.sleep] of CPython 3.11: the length is turned into a number of
    nanoseconds, which has to fit 64 bits, and then has to be
    non-negative.  (The rounding of that number, which matters within a
    microsecond of the bound of about 292 years, is left out, and so is the
    operating system's own refusal of a deadline too far away.) *)
Definition too_large : exn :=
  Exception "OverflowError" "timestamp too large to convert to C _PyTime_t".

Definition python_clock (d : pyfloat) : option exn :=
  match d with
  | Finite q =>
      let ns := (q * inject_Z (10 ^ 9))%Q in
      if Qle_bool (inject_Z (2 ^ 63)) ns || negb (Qle_bool (inject_Z (- 2 ^ 63)) ns)
      then Some too_large
      else if (Qnum q <? 0) then Some (Exception "ValueError" "sleep length must be non-negative")
      else None
  | Infinite _ => Some too_large
  | NaN => Some (Exception "ValueError" "Invalid value NaN (not a number)")
  end.

Definition ex_world : world := World N.of_nat ex_backend python_clock.

Definition ex_args_count (c : Z) : args :=
  Args "http://localhost:8000" None None
       "What is one key takeaway from today's class?" c (Finite (1 # 2)) false.

Definition ex_args : args := ex_args_count 3.

Definition ex_session : session :=
  Session "k7f2m9qa" "What is one key takeaway from today's class?"
          (Some "http://localhost:8000/session/k7f2m9qa/admin?token=tok").

(** The last [n] lines a run printed. *)
Definition last_lines (n : nat) (t : list event) : list string :=
  drop (length (printed t) - n) (printed t).

(** The request that creates a session, and the one that looks one up. *)
Definition create_request (a : args) : request :=
  Request POST (norm_base_url a +:+ "/api/sessions") [("question", question a)].

Definition lookup_request (a : args) (sid : string) : request :=
  Request GET (norm_base_url a +:+ "/api/sessions/" +:+ sid) [].

(** Two command lines that differ only by trailing slashes of their URLs,
    a frontend URL being given (not empty) in both or in neither. *)
Definition same_but_trailing_slashes (a1 a2 : args) : Prop :=
  Str.rstrip Str.is_slash (base_url a1) = Str.rstrip Str.is_slash (base_url a2) ∧
  opt_truthy (frontend_url a1) = opt_truthy (frontend_url a2) ∧
  Str.rstrip Str.is_slash (default "" (frontend_url a1))
  = Str.rstrip Str.is_slash (default "" (frontend_url a2)) ∧
  session_id a1 = session_id a2 ∧ question a1 = question a2 ∧
  count a1 = count a2 ∧ delay a1 = delay a2 ∧ no_delay a1 = no_delay a2.

(** The example command line with other frontend URLs, and a backend whose
    reply to the creation has no admin token. *)
Definition ex_args_frontend (f : option string) : args :=
  Args "http://localhost:8000" f None
       "What is one key takeaway from today's class?" 3 (Finite (1 # 2)) false.

Definition ex_world_no_token : world :=
  World N.of_nat
    (λ n r, match n with
            | 0%nat => Response 200 "" (Json (delete "admin_token" ex_session_info))
            | _ => Response 201 "" (Json ∅)
            end)
    python_clock.

(** The example command line for an existing session, and a backend that
    does not know it. *)
Definition ex_args_reuse : args :=
  Args "http://localhost:8000/" None (Some "nosuch01")
       "What is one key takeaway from today's class?" 10 (Finite (1 # 2)) false.

Definition ex_world_404 : world :=
  World N.of_nat (λ n r, Response 404 "Session not found" (NotJson expecting_value)) python_clock.

(** ** More readings of a run *)

(** The requests a run sent, in order. *)
Definition requests (t : list event) : list request :=
  omap (λ e, match e with Sent r => Some r | _ => None end) t.

(** The request that resolves the session: the lookup when a session id is
    given, the creation otherwise. *)
Definition session_request (a : args) : request :=
  if opt_truthy (session_id a)
  then lookup_request a (default "" (session_id a))
  else create_request a.

(** The arguments with another [--question], another [--session-id]. *)
Definition with_question (a : args) (q : string) : args :=
  Args (base_url a) (frontend_url a) (session_id a) q (count a) (delay a) (no_delay a).

Definition with_session_id (a : args) (sid : option string) : args :=
  Args (base_url a) (frontend_url a) sid (question a) (count a) (delay a) (no_delay a).

(** The line printed for a successful submission (line 224). *)
Definition success_line (a : args) (i : Z) (name answer : string) : string :=
  tag a i +:+ name +:+ ": " +:+ Str.take 50 answer +:+ "...".

(** No name begins like "FAILED: " or "ERROR: " does. *)
Definition begins_like_a_name (name : string) : bool :=
  match name with
  | String c1 (String c2 _) =>
      negb (bool_decide (c1 = "F"%char)) &&
      negb (bool_decide (c1 = "E"%char) && bool_decide (c2 = "R"%char))
  | _ => false
  end.

(** The session id the submissions go to: the configured one, or the one
    the backend gave to the session it created. *)
Definition session_id_in_use (a : args) (w : world) : string :=
  if opt_truthy (session_id a) then default "" (session_id a)
  else match backend w 0 (create_request a) with
       | Response _ _ (Json data) => get_or_empty data "session_id"
       | _ => ""
       end.

(** The exception a failed call ends in: that of [raise_for_status] on an
    error status, that of [resp.json()] on a body that is not JSON, that of
    httpx itself on a transport failure; none for a JSON body with a
    success status. *)
Definition error_of (r : reply) : option exn :=
  match r with
  | Response code txt json =>
      if is_success code then
        match json with
        | Json _ => None
        | NotJson msg => Some (Exception "JSONDecodeError" msg)
        end
      else Some (HTTPStatusError code txt)
  | TransportFailure cls msg => Some (Exception cls msg)
  end.

(** The reply is an HTTP error response. *)
Definition http_error (r : reply) : bool :=
  match r with
  | Response code _ _ => negb (is_success code)
  | TransportFailure _ _ => false
  end.

(** A backend that knows session nosuch01 after all. *)
Definition ex_world_reuse : world :=
  World N.of_nat
    (λ n r, match n with
            | 0%nat => Response 200 "" (Json {[ "question" := "Why?" ]})
            | _ => Response 201 "" (Json ∅)
            end)
    python_clock.

(** A backend that is down, and one that answers with an error page. *)
Definition ex_world_down : world :=
  World N.of_nat (λ n r, TransportFailure "ConnectError" "All connection attempts failed")
        python_clock.

Definition ex_world_500 : world :=
  World N.of_nat (λ n r, Response 500 "Internal Server Error" (NotJson expecting_value)) python_clock.

(** Something else than the backend listens at the base URL: every call
    comes back with a page of text and status 200. *)
Definition ex_world_page : world :=
  World N.of_nat (λ n r, Response 200 "<html>It works!</html>" (NotJson expecting_value))
        python_clock.

(** A check of the three pools, part by part. *)
Definition all_parts (P : string → string → string → bool) : bool :=
  forallb (λ st, forallb (λ bo, forallb (λ cl, P st bo cl)
    ANSWER_CLOSERS) ANSWER_BODIES) ANSWER_STARTERS.

(** What a closer adds to an answer: nothing when it is empty. *)
Definition closer_part (cl : string) : string :=
  if Str.truthy cl then " " +:+ cl else "".

(** The answers a run submitted. *)
Definition answer_of (e : event) : option string :=
  match e with
  | Sent (Request POST _ body) =>
      if bool_decide (is_Some (student_name_of e))
      then snd <$> find (λ kv, bool_decide (kv.1 = "answer")) body
      else None
  | _ => None
  end.

Definition submitted_answers (t : list event) : list string := omap answer_of t.

(** A backend whose session has no question, and one whose reply to the
    creation lacks the student URL. *)
Definition ex_world_no_question : world :=
  World N.of_nat
    (λ n r, match n with
            | 0%nat => Response 200 "" (Json ∅)
            | _ => Response 201 "" (Json ∅)
            end)
    python_clock.

Definition ex_world_no_student_url : world :=
  World N.of_nat
    (λ n r, match n with
            | 0%nat => Response 200 "" (Json (delete "student_url" ex_session_info))
            | _ => Response 201 "" (Json ∅)
            end)
    python_clock.

(** The last character of a string. *)
Fixpoint last_char (s : string) : option ascii :=
  match s with
  | "" => None
  | String c "" => Some c
  | String _ s' => last_char s'
  end.

(** ** Basic facts *)

Ltac session_unfold :=
  unfold get_or_create_session, create_session, try_except, httpx_get, httpx_post,
    httpx_request, raise_for_status, resp_json, getitem, get_or_empty, print, raise,
    sys_exit.

Ltac mstep :=
  repeat (progress (unfold mbind, M_bind, bind, mret, M_ret, ret;
                    cbn [draws calls status_code text json_body]; cbv beta iota zeta)).

Ltac session_cases :=
  repeat (mstep;
          try match goal with
              | |- context [backend ?w ?c ?r] =>
                  destruct (backend w c r) as [?code ?txt [?data|?msg]|?cls ?msg] eqn:?
              | |- context [is_success ?c] => destruct (is_success c) eqn:?
              | |- context [@lookup _ _ (gmap _ _) _ ?k ?d] => destruct (d !! k) eqn:?
              | |- context [opt_truthy ?x] => destruct (opt_truthy x) eqn:?
              | |- context [Str.truthy ?x] => destruct (Str.truthy x) eqn:?
              end).

Lemma pick_elem seq r : seq ≠ [] → seq !! N.to_nat (r `mod` N.of_nat (length seq))%N = Some (pick seq r).
Proof.
  intros Hne. unfold pick.
  destruct (lookup_lt_is_Some_2 seq (N.to_nat (r `mod` N.of_nat (length seq)))) as [x ->];
    [|done].
  assert (length seq ≠ 0%nat) by (by destruct seq).
  assert (r `mod` N.of_nat (length seq) < N.of_nat (length seq))%N
    by (apply N.mod_lt; lia).
  lia.
Qed.

Lemma pick_in seq r : seq ≠ [] → pick seq r ∈ seq.
Proof. intros H. eapply list_elem_of_lookup_2, pick_elem, H. Qed.

Lemma choice_spec seq w s :
  seq ≠ [] →
  choice seq w s = (Ret (pick seq (tape w (draws s))), PState (S (draws s)) (calls s), []).
Proof.
  intros Hne. unfold choice, mbind, M_bind, bind, draw.
  by rewrite (pick_elem _ _ Hne).
Qed.

Lemma random_student_name_spec w s :
  random_student_name w s
  = (Ret (name_at w (draws s)), PState (S (S (draws s))) (calls s), []).
Proof.
  unfold random_student_name, mbind, M_bind, bind.
  rewrite choice_spec by done. rewrite choice_spec by done. done.
Qed.

Lemma all_plain_at P w p : all_plain P = true → P (plain_at w p) = true.
Proof.
  unfold all_plain, plain_at. rewrite !forallb_forall. intros H.
  setoid_rewrite forallb_forall in H.
  setoid_rewrite forallb_forall in H.
  apply H; apply list_elem_of_In, pick_in; done.
Qed.

Lemma plain_uncons w p :
  ∃ c rest, Str.uncons (plain_at w p) = Some (c, rest).
Proof.
  pose proof (all_plain_at (λ a, bool_decide (is_Some (Str.uncons a))) w p) as H.
  apply bool_decide_eq_true in H; [|by vm_compute].
  destruct H as [[c rest] H]. eauto.
Qed.

Lemma plain_nonempty w p : plain_at w p ≠ "".
Proof.
  destruct (plain_uncons w p) as (c & rest & H). by intros E; rewrite E in H.
Qed.

Lemma plain_no_ref w p : has_ref_prefix (plain_at w p) = false.
Proof.
  apply negb_true_iff.
  apply (all_plain_at (λ a, negb (has_ref_prefix a))). by vm_compute.
Qed.

Lemma prefix_app r x : String.prefix r (r +:+ x) = true.
Proof.
  induction r as [|c r IH]; simpl; [by destruct x|].
  destruct (Ascii.ascii_dec c c); [done|congruence].
Qed.

Lemma ref_prefix_app r x : has_ref_prefix (pick refs r +:+ x) = true.
Proof.
  unfold has_ref_prefix. apply existsb_exists. exists (pick refs r). split.
  - apply list_elem_of_In, pick_in. done.
  - apply prefix_app.
Qed.

Lemma has_ref_prefix_answer_at question w p :
  has_ref_prefix (answer_at question w p) = flavoured question w p.
Proof.
  unfold answer_at. destruct (flavoured question w p).
  - apply ref_prefix_app.
  - apply plain_no_ref.
Qed.

Lemma ref_nonempty r x : pick refs r +:+ x ≠ "".
Proof.
  assert (Hin : pick refs r ∈ refs) by (by apply pick_in).
  revert Hin. generalize (pick refs r). intros ref Hin.
  apply list_elem_of_In in Hin. simpl in Hin.
  destruct Hin as [<-|[<-|[<-|[]]]]; by simpl.
Qed.

Lemma answer_at_nonempty question w p : answer_at question w p ≠ "".
Proof.
  unfold answer_at. destruct (flavoured question w p).
  - apply ref_nonempty.
  - apply plain_nonempty.
Qed.

Lemma random_answer_spec question w s :
  random_answer question w s
  = (Ret (answer_at question w (draws s)),
     PState (answer_draws question w (draws s) + draws s) (calls s), []).
Proof.
  unfold random_answer, answer_at, answer_draws, flavoured, flavour_draw, plain_at,
    lower_first.
  mstep. rewrite !choice_spec by done. mstep.
  destruct (Str.truthy question); [|done].
  unfold random, draw. mstep. simpl andb.
  destruct (below_0_3 _); [|done].
  rewrite choice_spec by done. mstep.
  destruct (plain_uncons w (draws s)) as (c & rest & E).
  unfold plain_at in E. rewrite E. done.
Qed.

Lemma name_at_in_all_names w p : name_at w p ∈ all_names.
Proof.
  unfold name_at, all_names.
  apply list_elem_of_bind. exists (pick FIRST_NAMES (tape w p)).
  split; [|by apply pick_in].
  apply list_elem_of_bind. exists (pick LAST_NAMES (tape w (S p))).
  split; [|by apply pick_in]. by apply list_elem_of_singleton.
Qed.

(** ** One iteration *)

Lemma submit_and_report_spec a ses i name answer w s :
  submit_and_report a ses i name answer w s
  = (Ret tt, PState (draws s) (S (calls s)),
     [ Sent (submit_request a ses name answer);
       Printed (report_line a i name answer
                  (backend w (calls s) (submit_request a ses name answer))) ]).
Proof.
  unfold submit_and_report, try_except, submit_response, httpx_post, httpx_request,
    report_line, raise_for_status, resp_json, print, raise.
  fold (submit_request a ses name answer). mstep.
  destruct (backend w (calls s) _) as [code txt json|cls msg]; mstep; [|done].
  destruct (is_success code); mstep; [|done].
  destruct json; mstep; by rewrite ?app_nil_r.
Qed.

Lemma pause_spec a i w s :
  pause a i w s
  = if float_truthy (effective_delay a) && (i <? count a - 1) then
      match clock w (effective_delay a) with
      | Some e => (Raise e, s, [])
      | None => (Ret tt, s, [Slept (effective_delay a)])
      end
    else (Ret tt, s, []).
Proof. unfold pause. by destruct (_ && _). Qed.

(** The redraw loop returns an unused name or is still spinning; it makes
    no call and prints nothing. *)
Lemma redraw_inv n used w : ∀ name s,
  name ∈ all_names →
  (∃ s', redraw n used name w s = (Spin, s', [])) ∨
  (∃ x s', redraw n used name w s = (Ret x, s', []) ∧ (x ∉ used) ∧ x ∈ all_names
           ∧ calls s' = calls s).
Proof.
  induction n as [|n IH]; intros name s Hpool; simpl; destruct (decide (name ∈ used)).
  - left. by eexists.
  - right. by exists name, s.
  - mstep. rewrite random_student_name_spec.
    destruct (IH (name_at w (draws s)) (PState (S (S (draws s))) (calls s)))
      as [[s' ->]|(x & s' & -> & ? & ? & ?)]; [apply name_at_in_all_names|..].
    + left. by eexists.
    + right. by exists x, s'.
  - right. by exists name, s.
Qed.

(** When one of the next draws, the first or one of [n] redraws, gives an
    unused name, lines 216-218 return an unused name. *)
Lemma fresh_name_finds used w : ∀ n k s,
  (k ≤ n)%nat →
  name_at w (2 * k + draws s) ∉ used →
  ∃ x s', (name ← random_student_name; redraw n used name) w s = (Ret x, s', [])
          ∧ (x ∉ used) ∧ calls s' = calls s.
Proof.
  induction n as [|n IH]; intros k s Hk Hfresh; mstep;
    rewrite random_student_name_spec; simpl redraw;
    destruct (decide (name_at w (draws s) ∈ used)) as [Hin|Hnin];
    try (by eexists _, _).
  - assert (k = O) as -> by lia. done.
  - destruct k as [|k]; [done|].
    destruct (IH k (PState (S (S (draws s))) (calls s))) as (x & s' & E & ? & ?);
      [lia|..].
    + simpl draws. by replace (2 * k + S (S (draws s)))%nat
        with (2 * S k + draws s)%nat by lia.
    + revert E. mstep. intros ->. by exists x, s'.
Qed.

(** What one iteration does once its name is drawn. *)
Lemma iteration_tail b a ses i used w s x s1 :
  (name ← random_student_name; redraw b used name) w s = (Ret x, s1, []) →
  calls s1 = calls s →
  ∃ p,
    let answer := answer_at (ses_question ses) w p in
    let req := submit_request a ses x answer in
    let line := report_line a i x answer (backend w (calls s) req) in
    let d := effective_delay a in
    if float_truthy d && (i <? count a - 1) then
      match clock w d with
      | Some e => ∃ s', iteration b a ses i used w s = (Raise e, s', [Sent req; Printed line])
      | None =>
          ∃ s', iteration b a ses i used w s
                = (Ret ({[x]} ∪ used), s', [Sent req; Printed line; Slept d])
                ∧ calls s' = S (calls s)
      end
    else
      ∃ s', iteration b a ses i used w s = (Ret ({[x]} ∪ used), s', [Sent req; Printed line])
            ∧ calls s' = S (calls s).
Proof.
  intros E Hc. exists (draws s1). cbv zeta.
  unfold iteration. revert E. mstep.
  destruct (random_student_name w s) as [[[name| | |] s0] t0]; try done.
  destruct (redraw b used name w s0) as [[o s1'] t1] eqn:E1.
  intros [= -> -> E]. apply app_eq_nil in E as [-> ->].
  rewrite random_answer_spec. mstep.
  rewrite submit_and_report_spec. mstep. rewrite Hc.
  rewrite pause_spec.
  destruct (float_truthy (effective_delay a) && (i <? count a - 1)).
  - destruct (clock w (effective_delay a)); by eexists.
  - by eexists.
Qed.

Lemma iteration_inv b a ses i used w s :
  (∃ s', iteration b a ses i used w s = (Spin, s', [])) ∨
  (∃ x s1, (x ∉ used) ∧ x ∈ all_names ∧ calls s1 = calls s ∧
     (name ← random_student_name; redraw b used name) w s = (Ret x, s1, [])).
Proof.
  unfold iteration. mstep. rewrite random_student_name_spec.
  destruct (redraw_inv b used w (name_at w (draws s)) (PState (S (S (draws s))) (calls s)))
    as [[s' ->]|(x & s' & -> & ? & ? & ?)]; [apply name_at_in_all_names|..].
  - left. by eexists.
  - right. by exists x, s'.
Qed.

(** ** The loop, one iteration at a time *)

Lemma submit_loop_found b a ses todo i used w s x s0 :
  (name ← random_student_name; redraw b used name) w s = (Ret x, s0, []) →
  calls s0 = calls s →
  ∃ p,
     let answer := answer_at (ses_question ses) w p in
     ((∃ e s', submit_loop b a ses (S todo) i used w s
               = (Raise e, s', attempt a ses w (calls s) i x answer)
               ∧ clock w (effective_delay a) = Some e
               ∧ pauses_after a i = [Slept (effective_delay a)]) ∨
      (∃ s1, calls s1 = S (calls s) ∧
         (pauses_after a i ≠ [] → clock w (effective_delay a) = None) ∧
         submit_loop b a ses (S todo) i used w s
         = let '(o, s', t) := submit_loop b a ses todo (i + 1) ({[x]} ∪ used) w s1 in
           (o, s', attempt a ses w (calls s) i x answer ++ pauses_after a i ++ t))).
Proof.
  intros E Hc. destruct (iteration_tail b a ses i _ _ _ _ _ E Hc) as [p H].
  exists p. cbv zeta in *. unfold pauses_after, attempt.
  destruct (float_truthy (effective_delay a) && (i <? count a - 1)).
  - destruct (clock w (effective_delay a)) as [e|].
    + left. destruct H as [s' H]. exists e, s'. simpl. mstep. by rewrite H.
    + right. destruct H as (s' & H & Hc'). exists s'. split_and!; [done..|].
      simpl. mstep. rewrite H.
      by destruct (submit_loop b a ses todo (i + 1) ({[x]} ∪ used) w s') as [[??]?].
  - right. destruct H as (s' & H & Hc'). exists s'. split_and!; [done..|].
    simpl. mstep. rewrite H.
    by destruct (submit_loop b a ses todo (i + 1) ({[x]} ∪ used) w s') as [[??]?].
Qed.

Lemma submit_loop_step b a ses todo i used w s :
  (∃ s', submit_loop b a ses (S todo) i used w s = (Spin, s', [])) ∨
  (∃ x p, ((x ∉ used) ∧ x ∈ all_names) ∧
     let answer := answer_at (ses_question ses) w p in
     ((∃ e s', submit_loop b a ses (S todo) i used w s
               = (Raise e, s', attempt a ses w (calls s) i x answer)
               ∧ clock w (effective_delay a) = Some e
               ∧ pauses_after a i = [Slept (effective_delay a)]) ∨
      (∃ s1, calls s1 = S (calls s) ∧
         (pauses_after a i ≠ [] → clock w (effective_delay a) = None) ∧
         submit_loop b a ses (S todo) i used w s
         = let '(o, s', t) := submit_loop b a ses todo (i + 1) ({[x]} ∪ used) w s1 in
           (o, s', attempt a ses w (calls s) i x answer ++ pauses_after a i ++ t)))).
Proof.
  destruct (iteration_inv b a ses i used w s) as [[s' E]|(x & s1 & Hx & Hpool & Hc & E)].
  { left. exists s'. simpl. mstep. by rewrite E. }
  right. destruct (submit_loop_found b a ses todo i _ _ _ _ _ E Hc) as [p H].
  by exists x, p.
Qed.

Lemma submitted_names_app t1 t2 :
  submitted_names (t1 ++ t2) = submitted_names t1 ++ submitted_names t2.
Proof. apply omap_app. Qed.

Lemma submitted_names_attempt a ses w c i x answer :
  submitted_names (attempt a ses w c i x answer) = [x].
Proof. done. Qed.

Lemma submitted_names_pauses a i : submitted_names (pauses_after a i) = [].
Proof. unfold pauses_after. by destruct (_ && _). Qed.

(** Names submitted by the loop are new and pairwise distinct. *)
Lemma submit_loop_names b a ses w : ∀ todo i used s,
  let t := (submit_loop b a ses todo i used w s).2 in
  NoDup (submitted_names t) ∧ ∀ x, x ∈ submitted_names t → (x ∉ used) ∧ x ∈ all_names.
Proof.
  induction todo as [|todo IH]; intros i used s; cbv zeta.
  { simpl. split; [constructor|]. by intros x ?%elem_of_nil. }
  destruct (submit_loop_step b a ses todo i used w s)
    as [[s' ->]|(x & p & Hx & [(e & s' & -> & _)|(s1 & _ & _ & ->)])].
  - simpl. split; [constructor|]. by intros x ?%elem_of_nil.
  - cbn [snd]. rewrite submitted_names_attempt. split.
    + apply NoDup_singleton.
    + by intros y ->%list_elem_of_singleton.
  - destruct (IH (i + 1) ({[x]} ∪ used) s1) as [Hnd Hnew].
    destruct (submit_loop b a ses todo (i + 1) ({[x]} ∪ used) w s1) as [[o s'] t].
    cbn [snd] in *. rewrite !submitted_names_app, submitted_names_attempt,
      submitted_names_pauses. simpl. split.
    + apply NoDup_cons. split; [|done]. intros Hin. apply Hnew in Hin as [Hin _].
      apply Hin, elem_of_union_l. by apply elem_of_singleton.
    + intros y [->|Hin]%elem_of_cons; [done|].
      destruct (Hnew y Hin) as [Hy ?]. split; [|done]. intros ?.
      by apply Hy, elem_of_union_r.
Qed.

(** ** The session part *)

(** Resolving the session makes one call, no submission and no pause. *)
Lemma session_events a w s :
  let '(o, s', t) := get_or_create_session a w s in
  submitted_names t = [] ∧ pauses t = [] ∧
  (∀ ses, o = Ret ses → calls s' = S (calls s)).
Proof.
  session_unfold. session_cases; done.
Qed.

(** ** The whole run *)

Lemma main_unfold b a w s :
  main b a w s
  = match get_or_create_session a w s with
    | (Ret ses, s1, t1) =>
        let '(o, s2, t2) := submit_responses b a ses w s1 in (o, s2, t1 ++ t2)
    | (Raise e, s1, t1) => (Raise e, s1, t1)
    | (SysExit c, s1, t1) => (SysExit c, s1, t1)
    | (Spin, s1, t1) => (Spin, s1, t1)
    end.
Proof. done. Qed.

Lemma summary_spec a ses w s :
  summary a ses w s = (Ret tt, s, summary_lines a ses).
Proof.
  unfold summary, summary_lines, link_line, print. mstep.
  by destruct (opt_truthy (ses_admin_url ses)).
Qed.

Lemma submit_responses_unfold b a ses w s :
  submit_responses b a ses w s
  = match submit_loop b a ses (Z.to_nat (count a)) 0 ∅ w s with
    | (Ret _, s1, t1) => (Ret tt, s1, header a :: t1 ++ summary_lines a ses)
    | (Raise e, s1, t1) => (Raise e, s1, header a :: t1)
    | (SysExit c, s1, t1) => (SysExit c, s1, header a :: t1)
    | (Spin, s1, t1) => (Spin, s1, header a :: t1)
    end.
Proof.
  unfold submit_responses, print. mstep.
  destruct (submit_loop _ _ _ _ _ _ _ _) as [[[[]| | |] s1] t1]; try done.
  by rewrite summary_spec.
Qed.

(** The events of [submit_responses]: the header, those of the loop, and
    the summary when the loop returned. *)
Lemma submit_responses_events b a ses w s :
  ∃ tail, (submit_responses b a ses w s).2
          = header a :: (submit_loop b a ses (Z.to_nat (count a)) 0 ∅ w s).2 ++ tail
          ∧ (tail = [] ∨ tail = summary_lines a ses).
Proof.
  rewrite submit_responses_unfold.
  destruct (submit_loop _ _ _ _ _ _ _ _) as [[[[]| | |] s1] t1]; cbn [snd];
    [exists (summary_lines a ses)|exists []..]; rewrite ?app_nil_r; auto.
Qed.

(** The events of a run: those of the session part, then those of
    [submit_responses] when a session was obtained. *)
Lemma run_events b a w :
  let '(o1, s1, t1) := get_or_create_session a w (PState 0 0) in
  (run b a w).2 = t1 ∨
  ∃ ses, o1 = Ret ses ∧ (run b a w).2 = t1 ++ (submit_responses b a ses w s1).2.
Proof.
  unfold run. rewrite main_unfold.
  destruct (get_or_create_session a w (PState 0 0)) as [[[ses| | |] s1] t1]; auto.
  right. exists ses. split; [done|].
  by destruct (submit_responses b a ses w s1) as [[??]?].
Qed.

(** C1.  In every run the display names submitted across the iterations
    (each produced by [random_student_name] and redrawn while it is already
    in the used-names set) are pairwise distinct.  This holds whatever the
    count, so in particular for every count of at most 600; it holds of the
    names generated so far when the run stops early or is still drawing. *)
Theorem names_pairwise_distinct (budget : nat) (a : args) (w : world) :
  NoDup (submitted_names (run budget a w).2).
Proof.
  pose proof (run_events budget a w) as H.
  pose proof (session_events a w (PState 0 0)) as Hs.
  destruct (get_or_create_session a w (PState 0 0)) as [[o1 s1] t1].
  destruct Hs as (Hnames & _ & _).
  destruct H as [->|(ses & _ & ->)]; [rewrite Hnames; constructor|].
  destruct (submit_responses_events budget a ses w s1) as (tail & -> & Htail).
  rewrite submitted_names_app, Hnames. simpl.
  rewrite submitted_names_app.
  replace (submitted_names tail) with (@nil string)
    by (by destruct Htail as [->| ->]).
  rewrite app_nil_r. apply submit_loop_names.
Qed.

(** The names submitted are composed from the two pools, of which there are
    600: no run makes more than 600 submissions. *)
Lemma run_names_in_pool (budget : nat) (a : args) (w : world) :
  NoDup (submitted_names (run budget a w).2) ∧
  ∀ x, x ∈ submitted_names (run budget a w).2 → x ∈ all_names.
Proof.
  pose proof (run_events budget a w) as H.
  pose proof (session_events a w (PState 0 0)) as Hs.
  destruct (get_or_create_session a w (PState 0 0)) as [[o1 s1] t1].
  destruct Hs as (Hnames & _ & _).
  destruct H as [->|(ses & _ & ->)].
  { rewrite Hnames. split; [constructor|]. by intros x ?%elem_of_nil. }
  destruct (submit_responses_events budget a ses w s1) as (tail & -> & Htail).
  rewrite submitted_names_app, Hnames. simpl.
  rewrite submitted_names_app.
  replace (submitted_names tail) with (@nil string)
    by (by destruct Htail as [->| ->]).
  rewrite app_nil_r.
  destruct (submit_loop_names budget a ses w (Z.to_nat (count a)) 0 ∅ s1) as [Hnd Hin].
  split; [done|]. intros x Hx. by apply Hin in Hx as [_ ?].
Qed.

Lemma at_most_600_submissions (budget : nat) (a : args) (w : world) :
  (submissions (run budget a w).2 ≤ 600)%nat.
Proof.
  destruct (run_names_in_pool budget a w) as [Hnd Hin].
  change 600%nat with (length all_names). unfold submissions.
  by apply submseteq_length, NoDup_submseteq.
Qed.

(** ** Pauses *)

Lemma pauses_app t1 t2 : pauses (t1 ++ t2) = pauses t1 ++ pauses t2.
Proof. apply filter_app. Qed.

Lemma after_submissions_skip n t1 t2 :
  submitted_names t1 = [] →
  after_submissions (S n) (t1 ++ t2) = after_submissions (S n) t2.
Proof.
  induction t1 as [|e t1 IH]; [done|]. intros H.
  change (submitted_names (e :: t1))
    with (match student_name_of e with
          | Some x => x :: submitted_names t1 | None => submitted_names t1 end) in H.
  simpl. unfold is_submission.
  destruct (student_name_of e); [done|]. rewrite bool_decide_false by (by intros []).
  by apply IH.
Qed.

Lemma pauses_cons_nil e t : pauses (e :: t) = [] → is_pause e = false ∧ pauses t = [].
Proof.
  unfold pauses. rewrite filter_cons.
  destruct (decide (is_pause e = true)); [done|]. by destruct (is_pause e).
Qed.

Lemma pauses_after_submissions t : ∀ n,
  pauses t = [] → pauses (after_submissions n t) = [].
Proof.
  induction t as [|e t IH]; intros [|n] H; try done.
  apply pauses_cons_nil in H as [_ H]. cbn [after_submissions].
  destruct (is_submission e); by apply IH.
Qed.

Lemma pauses_after_submissions_app t1 t2 : ∀ n,
  pauses (after_submissions n t1) = [] → pauses t2 = [] →
  pauses (after_submissions n (t1 ++ t2)) = [].
Proof.
  induction t1 as [|e t1 IH]; intros n H1 H2.
  - by apply pauses_after_submissions.
  - destruct n as [|n]; cbn [after_submissions app] in *.
    + change (e :: t1 ++ t2) with ((e :: t1) ++ t2). by rewrite pauses_app, H1, H2.
    + destruct (is_submission e); by apply IH.
Qed.

Lemma pauses_after_nil a i :
  float_truthy (effective_delay a) && (i <? count a - 1) = false → pauses_after a i = [].
Proof. unfold pauses_after. by intros ->. Qed.

(** Without a delay in effect the loop never pauses. *)
Lemma submit_loop_no_delay b a ses w :
  float_truthy (effective_delay a) = false →
  ∀ todo i used s, pauses (submit_loop b a ses todo i used w s).2 = [].
Proof.
  intros Hd. induction todo as [|todo IH]; intros i used s; [done|].
  destruct (submit_loop_step b a ses todo i used w s)
    as [[s' ->]|(x & p & Hx & [(e & s' & -> & _)|(s1 & _ & _ & ->)])]; [done..|].
  specialize (IH (i + 1) ({[x]} ∪ used) s1).
  destruct (submit_loop b a ses todo (i + 1) ({[x]} ∪ used) w s1) as [[o s'] t].
  cbn [snd] in *. rewrite pauses_after_nil by (by rewrite Hd).
  by rewrite app_nil_l, pauses_app, IH.
Qed.

(** The loop does not pause after its last submission. *)
Lemma submit_loop_last_pause b a ses w : ∀ todo i used s,
  i + Z.of_nat todo = count a →
  pauses (after_submissions todo (submit_loop b a ses todo i used w s).2) = [].
Proof.
  induction todo as [|todo IH]; intros i used s Hi; [done|].
  destruct (submit_loop_step b a ses todo i used w s)
    as [[s' ->]|(x & p & Hx & [(e & s' & -> & _)|(s1 & _ & _ & ->)])];
    [done|by destruct todo|].
  specialize (IH (i + 1) ({[x]} ∪ used) s1 ltac:(lia)).
  destruct (submit_loop b a ses todo (i + 1) ({[x]} ∪ used) w s1) as [[o s'] t] eqn:E.
  cbn [snd] in *. unfold attempt. cbn [app after_submissions].
  change (is_submission (Sent _)) with true. cbv iota.
  destruct todo as [|todo].
  - simpl in E. injection E as <- <- <-.
    rewrite pauses_after_nil; [done|].
    replace (i <? count a - 1) with false by (symmetry; apply Z.ltb_ge; lia).
    apply andb_false_r.
  - change (after_submissions (S todo) (Printed ?l :: ?r))
      with (after_submissions (S todo) r).
    by rewrite after_submissions_skip by apply submitted_names_pauses.
Qed.

Lemma pauses_tail a ses tail :
  tail = [] ∨ tail = summary_lines a ses → pauses tail = [] ∧ submitted_names tail = [].
Proof. by intros [->| ->]. Qed.

(** Every command line with [--no-delay] is of the form [with_no_delay a]. *)
Lemma with_no_delay_id a : no_delay a = true → with_no_delay a = a.
Proof. destruct a. simpl. by intros ->. Qed.

(** C7.  With [--no-delay] the delay in effect is zero and the run never
    pauses, whatever [--delay] says; and in every run, whatever the delay in
    effect, no pause follows the submission of the final iteration (the
    [count]-th one). *)
Theorem pacing (budget : nat) (a : args) (w : world) :
  effective_delay (with_no_delay a) = Finite 0 ∧
  pauses (run budget (with_no_delay a) w).2 = [] ∧
  pauses (after_submissions (Z.to_nat (count a)) (run budget a w).2) = [].
Proof.
  split; [done|]. split.
  - pose proof (run_events budget (with_no_delay a) w) as H.
    pose proof (session_events (with_no_delay a) w (PState 0 0)) as Hs.
    destruct (get_or_create_session _ w (PState 0 0)) as [[o1 s1] t1].
    destruct Hs as (_ & Hp & _).
    destruct H as [->|(ses & _ & ->)]; [done|].
    destruct (submit_responses_events budget (with_no_delay a) ses w s1)
      as (tail & -> & [Htail _]%pauses_tail).
    rewrite pauses_app, Hp. simpl.
    change (header ?x :: ?l) with ([header x] ++ l).
    by rewrite !pauses_app, Htail, submit_loop_no_delay.
  - pose proof (run_events budget a w) as H.
    pose proof (session_events a w (PState 0 0)) as Hs.
    destruct (get_or_create_session a w (PState 0 0)) as [[o1 s1] t1].
    destruct Hs as (Hn & Hp & _).
    destruct H as [->|(ses & _ & ->)]; [by apply pauses_after_submissions|].
    destruct (submit_responses_events budget a ses w s1)
      as (tail & -> & [Htail _]%pauses_tail).
    destruct (Z.to_nat (count a)) as [|m] eqn:Hm.
    + change (submit_loop budget a ses 0 0 ∅ w s1).2 with (@nil event).
      apply pauses_after_submissions.
      change (header ?x :: ?l) with ([header x] ++ l).
      by rewrite !pauses_app, Hp, Htail.
    + rewrite after_submissions_skip by done.
      change (header ?x :: ?l) with ([header x] ++ l).
      rewrite after_submissions_skip by done.
      apply pauses_after_submissions_app; [|done].
      rewrite <- Hm. apply submit_loop_last_pause. lia.
Qed.

(** ** Answers *)

(** C4.  For every question, the empty one included, and every state of
    the random generator, [random_answer] returns (it raises nothing and
    prints nothing) and the string it returns is not empty. *)
Theorem random_answer_nonempty (question : string) (w : world) (s : pstate) :
  ∃ answer s', random_answer question w s = (Ret answer, s', []) ∧ answer ≠ "".
Proof.
  rewrite random_answer_spec. eexists _, _. split; [done|].
  apply answer_at_nonempty.
Qed.

(** The comparison [random.random() < 0.3] on the numerator [k] of the
    drawn float k / 2^53, 0.3 being the double 5404319552844595 / 2^54. *)
Lemma below_0_3_spec (k : N) :
  below_0_3 k = true ↔ (Z.of_N k # 2 ^ 53 < 5404319552844595 # 2 ^ 54)%Q.
Proof.
  unfold below_0_3, Qlt. cbn [Qnum Qden]. rewrite N.ltb_lt. lia.
Qed.

(** C8.  [random_answer] returns an answer that starts with one of the
    referential prefixes exactly when the question is not empty and the
    draw of [random.random()] (the fourth output it consumes) is below 0.3.
    So with an empty question no prefix is prepended, whatever the state of
    the random generator, and with a non-empty one the prefix is applied
    exactly when the draw is below 0.3.  The returned text is the composed
    one, behind a prefix and with its first character lowered in the one
    case, unchanged in the other. *)
Theorem referential_prefix (question : string) (w : world) (s : pstate) :
  ∃ answer s',
    random_answer question w s = (Ret answer, s', []) ∧
    has_ref_prefix answer
    = Str.truthy question && below_0_3 (flavour_draw w (draws s)) ∧
    answer = (if has_ref_prefix answer
              then pick refs (tape w (4 + draws s)%nat) +:+ lower_first (plain_at w (draws s))
              else plain_at w (draws s)).
Proof.
  rewrite random_answer_spec. eexists _, _. split; [done|].
  rewrite has_ref_prefix_answer_at. split; [done|].
  unfold answer_at. by destruct (flavoured question w (draws s)).
Qed.

(** ** Progress *)

Lemma report_line_failed a i x answer r :
  failed r = true → is_failure_line a i (report_line a i x answer r).
Proof.
  unfold failed, report_line, is_failure_line.
  destruct r as [code txt json|cls msg]; [|by eauto].
  destruct (is_success code); [|by eauto].
  destruct json; [done|by eauto].
Qed.

Lemma submissions_app t1 t2 : submissions (t1 ++ t2) = (submissions t1 + submissions t2)%nat.
Proof. unfold submissions. by rewrite submitted_names_app, length_app. Qed.

(** With a generator that keeps supplying new names and a clock that lets
    the pause elapse, the loop runs all its iterations, whatever comes back
    from the submission calls: the j-th submission of the loop is the call
    of iteration i + j, followed by the line about its reply. *)
Lemma submit_loop_completes b a ses w limit :
  supplies_fresh b limit w →
  pause_elapses a w →
  ∀ todo i used s,
    (size used + todo ≤ limit)%nat →
    ∃ s' t,
      submit_loop b a ses todo i used w s = (Ret tt, s', t) ∧
      submissions t = todo ∧
      ∀ j, (j < todo)%nat →
        ∃ x answer pre post,
          t = pre ++ attempt a ses w (j + calls s) (i + Z.of_nat j) x answer ++ post ∧
          submissions pre = j ∧ submissions post = (todo - S j)%nat.
Proof.
  intros Hsup Hclock. induction todo as [|todo IH]; intros i used s Hsize.
  { exists s, []. split_and!; [done..|]. intros j Hj. lia. }
  destruct (Hsup (draws s) used ltac:(lia)) as (k & Hk & Hfresh).
  destruct (fresh_name_finds used w b k s Hk Hfresh) as (x & s0 & E & Hx & Hc).
  destruct (submit_loop_found b a ses todo i _ _ _ _ _ E Hc)
    as [p [(e & s' & _ & He & Hp)|(s1 & Hc1 & _ & ->)]].
  { unfold pauses_after in Hp.
    destruct (float_truthy (effective_delay a)) eqn:Hd; [|done].
    rewrite Hclock in He; done. }
  destruct (IH (i + 1) ({[x]} ∪ used) s1) as (s' & t & -> & Hn & Hj).
  { rewrite size_union by set_solver. rewrite size_singleton. lia. }
  eexists _, _. split; [done|]. split.
  { rewrite !submissions_app. unfold submissions at 1 2.
    rewrite submitted_names_attempt, submitted_names_pauses. simpl. lia. }
  intros [|j] Hlt.
  - exists x, (answer_at (ses_question ses) w p), [], (pauses_after a i ++ t).
    rewrite Z.add_0_r. split_and!; [done..|].
    rewrite submissions_app. unfold submissions at 1.
    rewrite submitted_names_pauses. simpl. lia.
  - destruct (Hj j ltac:(lia)) as (y & answer & pre & post & -> & Hpre & Hpost).
    exists y, answer,
      (attempt a ses w (calls s) i x (answer_at (ses_question ses) w p)
       ++ pauses_after a i ++ pre), post.
    split_and!.
    + rewrite Hc1. rewrite <- !app_assoc.
      by replace (i + 1 + Z.of_nat j) with (i + Z.of_nat (S j)) by lia;
         replace (j + S (calls s))%nat with (S j + calls s)%nat by lia.
    + rewrite !submissions_app. unfold submissions at 1 2.
      rewrite submitted_names_attempt, submitted_names_pauses. simpl. lia.
    + rewrite Hpost. lia.
Qed.

(** ** The example world supplies new names *)

(** There are 600 names: a generator cannot supply a new one to a run that
    has used them all. *)
Lemma supplies_fresh_capacity n limit w : supplies_fresh n limit w → (limit ≤ 600)%nat.
Proof.
  intros Hsup. destruct (decide (limit ≤ 600)%nat) as [|Hgt]; [done|].
  destruct (Hsup 0%nat (list_to_set all_names)) as (k & _ & Hfresh).
  - assert (size (list_to_set all_names : gset string) ≤ length all_names)%nat as H.
    { change (size ?X) with (length (elements X)).
      apply submseteq_length, NoDup_submseteq.
      - apply NoDup_elements.
      - intros x. rewrite elem_of_elements, elem_of_list_to_set. done. }
    change (length all_names) with 600%nat in H. lia.
  - exfalso. apply Hfresh. apply elem_of_list_to_set, name_at_in_all_names.
Qed.

Lemma names_unambiguous_spec f l f' l' :
  f ∈ FIRST_NAMES → l ∈ LAST_NAMES → f' ∈ FIRST_NAMES → l' ∈ LAST_NAMES →
  f +:+ " " +:+ l = f' +:+ " " +:+ l' → f = f' ∧ l = l'.
Proof.
  intros Hf Hl Hf' Hl' E.
  assert (H : names_unambiguous = true) by (by vm_compute).
  unfold names_unambiguous in H.
  rewrite forallb_forall in H. specialize (H f (proj1 (list_elem_of_In _ _) Hf)).
  rewrite forallb_forall in H. specialize (H l (proj1 (list_elem_of_In _ _) Hl)).
  rewrite forallb_forall in H. specialize (H f' (proj1 (list_elem_of_In _ _) Hf')).
  rewrite forallb_forall in H. specialize (H l' (proj1 (list_elem_of_In _ _) Hl')).
  rewrite E, String.eqb_refl in H. simpl in H.
  apply andb_true_iff in H as [H1 H2].
  by apply String.eqb_eq in H1, H2.
Qed.

Lemma pick_inj seq r r' :
  NoDup seq → seq ≠ [] → pick seq r = pick seq r' →
  (r `mod` N.of_nat (length seq) = r' `mod` N.of_nat (length seq))%N.
Proof.
  intros Hnd Hne E.
  pose proof (pick_elem seq r Hne) as H1. pose proof (pick_elem seq r' Hne) as H2.
  rewrite E in H1. pose proof (NoDup_lookup _ _ _ _ Hnd H1 H2). lia.
Qed.

Lemma first_names_nodup : NoDup FIRST_NAMES.
Proof. apply (bool_decide_unpack _). by vm_compute. Qed.

Lemma mod_shift_ne (p d : nat) :
  (0 < d < 30)%nat → (N.of_nat p `mod` 30 ≠ N.of_nat (d + p) `mod` 30)%N.
Proof.
  intros Hd E.
  pose proof (N.Div0.div_mod (N.of_nat p) 30) as H1.
  pose proof (N.Div0.div_mod (N.of_nat (d + p)) 30) as H2.
  pose proof (N.mod_lt (N.of_nat p) 30 ltac:(done)) as H3.
  rewrite <- E in H2. lia.
Qed.

Lemma ex_names_differ (p d : nat) :
  (0 < d < 30)%nat → name_at ex_world p ≠ name_at ex_world (d + p).
Proof.
  intros Hd E. unfold name_at in E.
  apply names_unambiguous_spec in E as [E _]; try (by apply pick_in).
  apply pick_inj in E; [|apply first_names_nodup|done].
  by apply (mod_shift_ne p d).
Qed.

Lemma ex_world_supplies_fresh : supplies_fresh 2 3 ex_world.
Proof.
  intros p used Hsize.
  destruct (decide (name_at ex_world p ∈ used)) as [H0|H0];
    [|exists 0%nat; split; [lia|done]].
  destruct (decide (name_at ex_world (2 + p) ∈ used)) as [H1|H1];
    [|exists 1%nat; split; [lia|done]].
  destruct (decide (name_at ex_world (4 + p) ∈ used)) as [H2|H2];
    [|exists 2%nat; split; [lia|done]].
  exfalso.
  pose proof (ex_names_differ p 2 ltac:(lia)) as D02.
  pose proof (ex_names_differ p 4 ltac:(lia)) as D04.
  pose proof (ex_names_differ (2 + p) 2 ltac:(lia)) as D24.
  assert (Hnd : NoDup [name_at ex_world p; name_at ex_world (2 + p);
                       name_at ex_world (4 + p)]).
  { repeat constructor; rewrite ?elem_of_cons; rewrite ?elem_of_nil; tauto. }
  assert (Hsub : (list_to_set [name_at ex_world p; name_at ex_world (2 + p);
                               name_at ex_world (4 + p)] : gset string) ⊆ used).
  { intros x Hx. apply elem_of_list_to_set in Hx.
    repeat (apply elem_of_cons in Hx as [->|Hx]; [done|]). by apply elem_of_nil in Hx. }
  apply subseteq_size in Hsub. rewrite size_list_to_set in Hsub by done.
  simpl in Hsub. lia.
Qed.

(** ** Failed submissions and the summary *)

(** What a run is when a session is obtained, the generator keeps supplying
    new names and the clock lets the pause elapse. *)
Lemma run_completes budget a w ses s1 t1 :
  supplies_fresh budget (Z.to_nat (count a)) w →
  pause_elapses a w →
  get_or_create_session a w (PState 0 0) = (Ret ses, s1, t1) →
  ∃ s' t,
    submit_loop budget a ses (Z.to_nat (count a)) 0 ∅ w s1 = (Ret tt, s', t) ∧
    run budget a w = (Ret tt, t1 ++ header a :: t ++ summary_lines a ses) ∧
    calls s1 = 1%nat ∧ submitted_names t1 = [].
Proof.
  intros Hsup Hclock Hses.
  destruct (submit_loop_completes budget a ses w _ Hsup Hclock
              (Z.to_nat (count a)) 0 ∅ s1) as (s' & t & E & _).
  { rewrite size_empty. lia. }
  exists s', t. split; [done|].
  pose proof (session_events a w (PState 0 0)) as Hs. rewrite Hses in Hs.
  destruct Hs as (Hn & _ & Hc).
  unfold run. rewrite main_unfold, Hses, submit_responses_unfold, E.
  split_and!; [done| |done]. by apply (Hc ses).
Qed.

(** C3.  Take a run in which a session is obtained, the random generator
    keeps supplying unused names and the pause itself does not fail.  If
    the submit call of iteration k, 1 < k < count, fails (an HTTP error
    response or an exception; call 0 of the run resolves the session, so
    the call of iteration k is call k), the run still returns normally:
    after the k - 1 earlier submissions comes the failed call, the failure
    line tagged [k/count] is printed for it, and the count - k submissions
    of the iterations k + 1 .. count follow. *)
Theorem failed_submission_isolated (budget : nat) (a : args) (w : world)
    (ses : session) (s1 : pstate) (t1 : list event) (k : Z) :
  supplies_fresh budget (Z.to_nat (count a)) w →
  pause_elapses a w →
  get_or_create_session a w (PState 0 0) = (Ret ses, s1, t1) →
  1 < k < count a →
  (∀ r, failed (backend w (Z.to_nat k) r) = true) →
  ∃ pre x answer line post,
    run budget a w
    = (Ret tt, pre ++ [Sent (submit_request a ses x answer); Printed line] ++ post) ∧
    submissions pre = Z.to_nat (k - 1) ∧
    is_failure_line a (k - 1) line ∧
    submissions post = Z.to_nat (count a - k).
Proof.
  intros Hsup Hclock Hses Hk Hfail.
  destruct (run_completes budget a w ses s1 t1 Hsup Hclock Hses)
    as (s' & t & E & -> & Hc & Hn).
  destruct (submit_loop_completes budget a ses w _ Hsup Hclock
              (Z.to_nat (count a)) 0 ∅ s1) as (s'' & t' & E' & _ & Hj).
  { rewrite size_empty. lia. }
  rewrite E in E'. injection E' as <- <-.
  destruct (Hj (Z.to_nat (k - 1)) ltac:(lia)) as (x & answer & pre & post & -> & Hpre & Hpost).
  rewrite Hc in *.
  replace (Z.to_nat (k - 1) + 1)%nat with (Z.to_nat k) by lia.
  replace (0 + Z.of_nat (Z.to_nat (k - 1))) with (k - 1) by lia.
  exists (t1 ++ header a :: pre), x, answer,
    (report_line a (k - 1) x answer (backend w (Z.to_nat k) (submit_request a ses x answer))),
    (post ++ summary_lines a ses).
  split_and!.
  - unfold attempt. by rewrite <- !app_assoc.
  - change (header a :: pre) with ([header a] ++ pre).
    rewrite !submissions_app. unfold submissions at 1 2. rewrite Hn. simpl. lia.
  - by apply report_line_failed.
  - rewrite submissions_app, Hpost.
    change (submissions (summary_lines a ses)) with 0%nat. lia.
Qed.

Lemma failed_submission_isolated_witness :
  get_or_create_session ex_args ex_world (PState 0 0)
  = (Ret ex_session, PState 0 1,
     [ Sent (Request POST "http://localhost:8000/api/sessions"
               [("question", "What is one key takeaway from today's class?")]);
       Printed "Created session: k7f2m9qa";
       Printed "  Student URL: http://localhost:5173/session/k7f2m9qa";
       Printed "  Admin URL:   http://localhost:8000/session/k7f2m9qa/admin?token=tok" ]) ∧
  ∃ pre x answer line post,
    run 2 ex_args ex_world
    = (Ret tt, pre ++ [Sent (submit_request ex_args ex_session x answer); Printed line] ++ post) ∧
    submissions pre = 1%nat ∧
    is_failure_line ex_args 1 line ∧
    submissions post = 1%nat.
Proof.
  assert (get_or_create_session ex_args ex_world (PState 0 0)
          = (Ret ex_session, PState 0 1,
     [ Sent (Request POST "http://localhost:8000/api/sessions"
               [("question", "What is one key takeaway from today's class?")]);
       Printed "Created session: k7f2m9qa";
       Printed "  Student URL: http://localhost:5173/session/k7f2m9qa";
       Printed "  Admin URL:   http://localhost:8000/session/k7f2m9qa/admin?token=tok" ]))
    as Hses by (vm_compute; reflexivity).
  split; [exact Hses|].
  apply (failed_submission_isolated 2 ex_args ex_world ex_session _ _ 2
           ex_world_supplies_fresh (λ _, eq_refl) Hses).
  - split; reflexivity.
  - intros r. reflexivity.
Defined.

(** C9, amended.  When a session is obtained, the random generator keeps
    supplying unused names and the pause itself does not fail, the run makes its
    [count] submissions and then prints the final summary, whatever came
    back from the submission calls.  The summary is the "Done!" line
    followed by the admin link or by the placeholder link; it does not
    state the number of attempted items. *)
Theorem summary_after_all_iterations (budget : nat) (a : args) (w : world)
    (ses : session) (s1 : pstate) (t1 : list event) :
  supplies_fresh budget (Z.to_nat (count a)) w →
  pause_elapses a w →
  get_or_create_session a w (PState 0 0) = (Ret ses, s1, t1) →
  ∃ body,
    run budget a w = (Ret tt, body ++ [Printed done_line; Printed (link_line a ses)]) ∧
    submissions body = Z.to_nat (count a).
Proof.
  intros Hsup Hclock Hses.
  destruct (run_completes budget a w ses s1 t1 Hsup Hclock Hses)
    as (s' & t & E & -> & Hc & Hn).
  destruct (submit_loop_completes budget a ses w _ Hsup Hclock
              (Z.to_nat (count a)) 0 ∅ s1) as (s'' & t' & E' & Hsub & _).
  { rewrite size_empty. lia. }
  rewrite E in E'. injection E' as <- <-.
  exists (t1 ++ header a :: t). split.
  - unfold summary_lines. by rewrite <- app_assoc.
  - change (header a :: t) with ([header a] ++ t).
    rewrite !submissions_app, Hsub. unfold submissions at 1 2. rewrite Hn. simpl. lia.
Qed.

Lemma ex_session_obtained :
  get_or_create_session ex_args ex_world (PState 0 0)
  = (Ret ex_session, PState 0 1,
     [ Sent (create_request ex_args);
       Printed "Created session: k7f2m9qa";
       Printed "  Student URL: http://localhost:5173/session/k7f2m9qa";
       Printed "  Admin URL:   http://localhost:8000/session/k7f2m9qa/admin?token=tok" ]).
Proof. by vm_compute. Qed.

Lemma summary_after_all_iterations_witness :
  ∃ body,
    run 2 ex_args ex_world
    = (Ret tt, body ++ [Printed done_line; Printed (link_line ex_args ex_session)]) ∧
    submissions body = 3%nat.
Proof.
  exact (summary_after_all_iterations 2 ex_args ex_world ex_session _ _
           ex_world_supplies_fresh (λ _, eq_refl) ex_session_obtained).
Defined.


(** C9, as stated, fails: in this run of three submissions, one of them
    failed, the summary printed at the end is the "Done!" line and the admin
    link; neither mentions the number 3, and a run of two submissions ends
    with the same two lines. *)
Lemma summary_reports_no_total :
  (run 2 ex_args ex_world).1 = Ret tt ∧
  submissions (run 2 ex_args ex_world).2 = 3%nat ∧
  last_lines 2 (run 2 ex_args ex_world).2
  = [ done_line; "  http://localhost:8000/session/k7f2m9qa/admin?token=tok" ] ∧
  existsb (Str.contains (pretty (count ex_args))) (last_lines 2 (run 2 ex_args ex_world).2)
  = false ∧
  submissions (run 2 (ex_args_count 2) ex_world).2 = 2%nat ∧
  last_lines 2 (run 2 (ex_args_count 2) ex_world).2
  = last_lines 2 (run 2 ex_args ex_world).2.
Proof. by vm_compute. Qed.

(** ** Resolving the session *)

(** C2.  On the reuse path (a session id is configured), when the session
    lookup comes back with a non-success status, the script prints the
    error and exits with status 1: the lookup is the only call of the run,
    no submission is made, and the loop is never entered. *)
Theorem unknown_session_aborts (budget : nat) (a : args) (w : world)
    (sid : string) (code : Z) (txt : string) (json : body) :
  session_id a = Some sid →
  sid ≠ "" →
  backend w 0 (lookup_request a sid) = Response code txt json →
  is_success code = false →
  run budget a w
  = (SysExit 1,
     [ Sent (lookup_request a sid);
       Printed ("Error: Session " +:+ sid +:+ " not found (" +:+ pretty code +:+ ")") ]) ∧
  submissions (run budget a w).2 = 0%nat ∧
  exit_status (run budget a w).1 = Some 1.
Proof.
  intros Hsid Hne Hreply Hcode.
  assert (run budget a w
          = (SysExit 1,
             [ Sent (lookup_request a sid);
               Printed ("Error: Session " +:+ sid +:+ " not found (" +:+ pretty code +:+ ")") ]))
    as ->; [|done].
  unfold run. rewrite main_unfold. session_unfold. rewrite Hsid.
  replace (opt_truthy (Some sid)) with true by (by destruct sid).
  cbn [default from_option id]. fold (lookup_request a sid). mstep.
  rewrite Hreply. mstep.
  rewrite Hcode. mstep. done.
Qed.

Lemma unknown_session_aborts_witness :
  run 5 ex_args_reuse ex_world_404
  = (SysExit 1,
     [ Sent (lookup_request ex_args_reuse "nosuch01");
       Printed "Error: Session nosuch01 not found (404)" ]) ∧
  submissions (run 5 ex_args_reuse ex_world_404).2 = 0%nat ∧
  exit_status (run 5 ex_args_reuse ex_world_404).1 = Some 1.
Proof.
  apply (unknown_session_aborts 5 ex_args_reuse ex_world_404 "nosuch01" 404
           "Session not found" (NotJson expecting_value)); done.
Defined.

(** What the create path does when the reply carries a session id and a
    student URL. *)
Lemma create_path_spec a w s code txt data sid student_url :
  opt_truthy (session_id a) = false →
  backend w (calls s) (create_request a) = Response code txt (Json data) →
  is_success code = true →
  data !! "session_id" = Some sid →
  data !! "student_url" = Some student_url →
  get_or_create_session a w s
  = let s' := PState (draws s) (S (calls s)) in
    let t := [ Sent (create_request a);
               Printed ("Created session: " +:+ sid);
               Printed ("  Student URL: " +:+ student_url) ] in
    if Str.truthy (norm_frontend_url a) then
      match data !! "admin_token" with
      | None => (Raise (Exception "KeyError" "'admin_token'"), s', t)
      | Some tok =>
          let link := admin_link_of (norm_frontend_url a) sid tok in
          (Ret (Session sid (question a) (if Str.truthy tok then Some link else None)),
           s', t ++ [Printed ("  Admin URL:   " +:+ link)])
      end
    else
      match data !! "admin_url" with
      | None => (Raise (Exception "KeyError" "'admin_url'"), s', t)
      | Some url =>
          (Ret (Session sid (question a)
                  (if Str.truthy (default "" (data !! "admin_token"))
                   then Some (admin_link_of (norm_frontend_url a) sid
                                (default "" (data !! "admin_token")))
                   else None)),
           s', t ++ [Printed ("  Admin URL:   " +:+ url)])
      end.
Proof.
  intros Hpath Hreply Hcode Hsid Hurl.
  session_unfold. rewrite Hpath. fold (create_request a). mstep.
  rewrite Hreply. mstep. rewrite Hcode. mstep. rewrite Hsid. mstep.
  rewrite Hurl. mstep. cbn [opt_truthy default from_option id].
  destruct (Str.truthy (norm_frontend_url a)); mstep.
  - destruct (data !! "admin_token") as [tok|] eqn:Htok; mstep;
      rewrite ?Hsid, ?Htok; mstep; done.
  - destruct (data !! "admin_url") as [url|]; mstep; rewrite ?Hsid; mstep; done.
Qed.

Lemma admin_link_truthy f sid tok : Str.truthy (admin_link_of f sid tok) = true.
Proof. unfold admin_link_of. by destruct f. Qed.

Lemma truthy_nonempty s : s ≠ "" → Str.truthy s = true.
Proof. by destruct s. Qed.

Lemma run_starts_with_session budget a w ses s1 t1 :
  get_or_create_session a w (PState 0 0) = (Ret ses, s1, t1) →
  ∃ rest, (run budget a w).2 = t1 ++ rest.
Proof.
  intros E. pose proof (run_events budget a w) as H. rewrite E in H.
  destruct H as [->|(? & _ & ->)]; [exists []; by rewrite app_nil_r|by eexists].
Qed.

(** C6: what the code does instead.  On the create path, when the reply to
    the creation carries a session id and a student URL but no admin token,
    and the frontend URL in effect is not empty (as with the defaults),
    [create_session] raises KeyError on [data['admin_token']] (line 127):
    the run ends there with a traceback, before any submission. *)
Theorem missing_admin_token_crashes (budget : nat) (a : args) (w : world) (code : Z)
    (txt : string) (data : gmap string string) (sid student_url : string) :
  opt_truthy (session_id a) = false →
  backend w 0 (create_request a) = Response code txt (Json data) →
  is_success code = true →
  data !! "session_id" = Some sid →
  data !! "student_url" = Some student_url →
  data !! "admin_token" = None →
  norm_frontend_url a ≠ "" →
  run budget a w
  = (Raise (Exception "KeyError" "'admin_token'"),
     [ Sent (create_request a);
       Printed ("Created session: " +:+ sid);
       Printed ("  Student URL: " +:+ student_url) ]) ∧
  submissions (run budget a w).2 = 0%nat ∧
  exit_status (run budget a w).1 = Some 1.
Proof.
  intros Hpath Hreply Hcode Hsid Hurl Htok Hf.
  pose proof (create_path_spec a w (PState 0 0) code txt data sid student_url
                Hpath Hreply Hcode Hsid Hurl) as E.
  rewrite Htok, truthy_nonempty in E by done. cbv zeta in E.
  unfold run. rewrite main_unfold, E. done.
Qed.

Lemma missing_admin_token_crashes_witness :
  run 2 ex_args ex_world_no_token
  = (Raise (Exception "KeyError" "'admin_token'"),
     [ Sent (create_request ex_args);
       Printed "Created session: k7f2m9qa";
       Printed "  Student URL: http://localhost:5173/session/k7f2m9qa" ]) ∧
  submissions (run 2 ex_args ex_world_no_token).2 = 0%nat ∧
  exit_status (run 2 ex_args ex_world_no_token).1 = Some 1.
Proof.
  apply (missing_admin_token_crashes 2 ex_args ex_world_no_token 200 ""
           (delete "admin_token" ex_session_info)
           "k7f2m9qa" "http://localhost:5173/session/k7f2m9qa"); done.
Defined.

(** ** Trailing slashes *)

(** [rstrip] removes the trailing characters to drop and nothing else. *)
Lemma rstrip_spec p s :
  ∃ dropped, s = Str.rstrip p s +:+ dropped ∧
             (∀ c, c ∈ String.list_ascii_of_string dropped → p c = true) ∧
             Str.rstrip p (Str.rstrip p s) = Str.rstrip p s.
Proof.
  induction s as [|c s (dropped & Hs & Hd & Hi)].
  { exists "". split_and!; [done| |done]. simpl. intros c Hc. by apply elem_of_nil in Hc. }
  simpl. destruct (Str.rstrip p s) as [|c' r] eqn:E.
  - change ("" +:+ dropped) with dropped in Hs. subst dropped.
    destruct (p c) eqn:Hc.
    + exists (String c s). split_and!; [done| |done].
      simpl. intros c0 [->|?]%elem_of_cons; auto.
    + exists s. split_and!; [done..|]. simpl. by rewrite Hc.
  - exists dropped. split_and!; [|done|].
    + change (String c (String c' r) +:+ dropped)
        with (String c (String c' r +:+ dropped)). by rewrite <- Hs.
    + change (Str.rstrip p (String c (String c' r)))
        with (match Str.rstrip p (String c' r) with
              | "" => if p c then "" else String c ""
              | r0 => String c r0 end). by rewrite Hi.
Qed.

(** The script reads its arguments through these only. *)
Lemma main_ext budget a1 a2 :
  norm_base_url a1 = norm_base_url a2 →
  norm_frontend_url a1 = norm_frontend_url a2 →
  session_id a1 = session_id a2 →
  question a1 = question a2 →
  count a1 = count a2 →
  effective_delay a1 = effective_delay a2 →
  main budget a1 = main budget a2.
Proof.
  intros Hb Hf Hs Hq Hc Hd.
  unfold main, submit_responses, submit_loop, iteration, submit_and_report, pause,
    summary, tag, get_or_create_session.
  by rewrite Hb, Hf, Hs, Hq, Hc, Hd.
Qed.

(** C10, amended.  Two runs whose command lines differ only by trailing
    slashes of the base URL and of the frontend URL, a frontend URL being
    given in both or in neither, are the same run in every world: the same
    stripped URLs are in effect, so the same requests are sent and the same
    lines, admin links included, are printed. *)
Theorem trailing_slashes_ignored (budget : nat) (a1 a2 : args) (w : world) :
  same_but_trailing_slashes a1 a2 →
  norm_base_url a1 = norm_base_url a2 ∧
  norm_frontend_url a1 = norm_frontend_url a2 ∧
  run budget a1 w = run budget a2 w.
Proof.
  intros (Hb & Ht & Hf & Hs & Hq & Hc & Hd & Hn).
  assert (norm_frontend_url a1 = norm_frontend_url a2) as Hnf.
  { unfold norm_frontend_url, norm_base_url. rewrite <- Ht, Hb.
    destruct (opt_truthy (frontend_url a1)); done. }
  split_and!; [done..|].
  unfold run. rewrite (main_ext budget a1 a2); try done.
  unfold effective_delay. by rewrite Hd, Hn.
Qed.

Lemma trailing_slashes_ignored_witness :
  same_but_trailing_slashes
    (Args "http://localhost:8000///" (Some "http://localhost:5173/") None "Why?" 3
          (Finite (1 # 2)) false)
    (Args "http://localhost:8000" (Some "http://localhost:5173") None "Why?" 3
          (Finite (1 # 2)) false) ∧
  norm_base_url (Args "http://localhost:8000///" (Some "http://localhost:5173/") None "Why?" 3
                      (Finite (1 # 2)) false)
  = norm_base_url (Args "http://localhost:8000" (Some "http://localhost:5173") None "Why?" 3
                        (Finite (1 # 2)) false) ∧
  norm_frontend_url (Args "http://localhost:8000///" (Some "http://localhost:5173/") None "Why?" 3
                          (Finite (1 # 2)) false)
  = norm_frontend_url (Args "http://localhost:8000" (Some "http://localhost:5173") None "Why?" 3
                            (Finite (1 # 2)) false) ∧
  run 2 (Args "http://localhost:8000///" (Some "http://localhost:5173/") None "Why?" 3
              (Finite (1 # 2)) false) ex_world
  = run 2 (Args "http://localhost:8000" (Some "http://localhost:5173") None "Why?" 3
                (Finite (1 # 2)) false) ex_world.
Proof.
  assert (same_but_trailing_slashes
    (Args "http://localhost:8000///" (Some "http://localhost:5173/") None "Why?" 3
          (Finite (1 # 2)) false)
    (Args "http://localhost:8000" (Some "http://localhost:5173") None "Why?" 3
          (Finite (1 # 2)) false)) as H by (by vm_compute).
  split; [exact H|].
  exact (trailing_slashes_ignored 2 _ _ ex_world H).
Defined.

(** C10, as stated, fails: [--frontend-url ""] and [--frontend-url /]
    differ only by a trailing slash, but the empty one gives way to the base
    URL while "/" is stripped to an empty frontend URL, and the two runs
    print different admin links. *)
Lemma slash_only_frontend_differs :
  base_url (ex_args_frontend (Some "")) = base_url (ex_args_frontend (Some "/")) ∧
  Str.rstrip Str.is_slash "" = Str.rstrip Str.is_slash "/" ∧
  last_lines 1 (run 2 (ex_args_frontend (Some "")) ex_world).2
  = [ "  http://localhost:8000/session/k7f2m9qa/admin?token=tok" ] ∧
  last_lines 1 (run 2 (ex_args_frontend (Some "/")) ex_world).2
  = [ "  /session/k7f2m9qa/admin?token=tok" ].
Proof. by vm_compute. Qed.

(** ** The example world at work *)

(** The three submissions of the example run are paced by two pauses. *)
Example ex_run_pauses :
  pauses (run 2 ex_args ex_world).2 = [Slept (Finite (1 # 2)); Slept (Finite (1 # 2))].
Proof. by vm_compute. Qed.

(** A draw of 0.375 leaves the composed answer as it is; a draw below 0.3
    puts a prefix before it; an empty question draws no float at all. *)
Example ex_answer_plain :
  random_answer "Why?" (World (λ n, (N.of_nat n * 2 ^ 50)%N) ex_backend python_clock)
    (PState 0 0)
  = (Ret ("I think that understanding the fundamentals makes everything else easier. " +:+
          "Would love to hear others' thoughts."),
     PState 4 0, []).
Proof. by vm_compute. Qed.

Example ex_answer_prefixed :
  random_answer "Why?" ex_world (PState 0 0)
  = (Ret ("On this topic, i think that we need to balance theory with practical " +:+
          "application. Curious what the rest of the class thinks."),
     PState 5 0, []).
Proof. by vm_compute. Qed.

Example ex_answer_no_question :
  random_answer "" ex_world (PState 0 0)
  = (Ret ("I think that we need to balance theory with practical application. " +:+
          "Curious what the rest of the class thinks."),
     PState 3 0, []).
Proof. by vm_compute. Qed.

(** A generator that always gives the same output draws "Alex Smith" for
    ever: the second iteration never gets its name. *)
Example ex_constant_generator_spins :
  (run 5 (ex_args_count 2) (World (λ _, 0%N) ex_backend python_clock)).1 = Spin ∧
  submitted_names (run 5 (ex_args_count 2) (World (λ _, 0%N) ex_backend python_clock)).2
  = ["Alex Smith"].
Proof. by vm_compute. Qed.

(** A negative [--delay] makes the first pause raise: the run ends after
    one submission. *)
Example ex_negative_delay :
  (run 2 (Args "http://localhost:8000" None None "Why?" 2 (Finite (-1 # 2)) false)
       ex_world).1
  = Raise (Exception "ValueError" "sleep length must be non-negative").
Proof. by vm_compute. Qed.

(** ** The loop, by induction on its iterations *)

Section LoopInduction.

  Variable b : nat.
  Variable a : args.
  Variable ses : session.
  Variable w : world.
  Variable P : nat → Z → gset string → pstate → outcome unit * pstate * list event → Prop.

  Hypothesis P_done : ∀ i used s, P 0 i used s (Ret tt, s, []).
  Hypothesis P_spin : ∀ todo i used s s', P (S todo) i used s (Spin, s', []).
  Hypothesis P_sleep_raises : ∀ todo i used s x p e s',
    x ∉ used → x ∈ all_names →
    clock w (effective_delay a) = Some e →
    pauses_after a i = [Slept (effective_delay a)] →
    P (S todo) i used s
      (Raise e, s', attempt a ses w (calls s) i x (answer_at (ses_question ses) w p)).
  Hypothesis P_next : ∀ todo i used s x p s1 o s' t,
    x ∉ used → x ∈ all_names →
    calls s1 = S (calls s) →
    (pauses_after a i ≠ [] → clock w (effective_delay a) = None) →
    submit_loop b a ses todo (i + 1) ({[x]} ∪ used) w s1 = (o, s', t) →
    P todo (i + 1) ({[x]} ∪ used) s1 (o, s', t) →
    P (S todo) i used s
      (o, s', attempt a ses w (calls s) i x (answer_at (ses_question ses) w p)
              ++ pauses_after a i ++ t).

Lemma submit_loop_induction : ∀ todo i used s,
  P todo i used s (submit_loop b a ses todo i used w s).
Proof.
  induction todo as [|todo IH]; intros i used s; [apply P_done|].
  destruct (submit_loop_step b a ses todo i used w s)
    as [[s' ->]|(x & p & [Hx Hpool] & [(e & s' & -> & He & Hp)|(s1 & Hc & Hcl & ->)])].
  - apply P_spin.
  - by apply P_sleep_raises.
  - specialize (IH (i + 1) ({[x]} ∪ used) s1).
    destruct (submit_loop b a ses todo (i + 1) ({[x]} ∪ used) w s1) as [[o s'] t] eqn:E.
    by apply (P_next todo i used s x p s1).
Qed.

End LoopInduction.

Lemma requests_app t1 t2 : requests (t1 ++ t2) = requests t1 ++ requests t2.
Proof. apply omap_app. Qed.

Lemma requests_pauses a i : requests (pauses_after a i) = [].
Proof. unfold pauses_after. by destruct (_ && _). Qed.

(** The loop never calls [sys.exit]. *)
Lemma submit_loop_no_exit b a ses w todo i used s c s' t :
  submit_loop b a ses todo i used w s ≠ (SysExit c, s', t).
Proof.
  revert s' t.
  apply (submit_loop_induction b a ses w
           (λ _ _ _ _ r, ∀ s' t, r ≠ (SysExit c, s', t))); try done.
  intros ? ? ? ? ? ? ? o s1' t1 _ _ _ _ _ IH s' t [= -> -> E]. by eapply IH.
Qed.

(** When the loop returns, each of its iterations has made its call. *)
Lemma submit_loop_ret b a ses w todo i used s s' t :
  submit_loop b a ses todo i used w s = (Ret tt, s', t) →
  submissions t = todo ∧ calls s' = (todo + calls s)%nat.
Proof.
  revert s' t.
  apply (submit_loop_induction b a ses w
           (λ todo i used s r, ∀ s' t, r = (Ret tt, s', t) →
              submissions t = todo ∧ calls s' = (todo + calls s)%nat)); try done.
  - by intros ? ? ? ? ? [= <- <-].
  - intros todo' i' used' s0 x p s1 o s1' t1 _ _ Hc _ _ IH s' t E.
    injection E as Ho Hs Ht. subst o s1' t.
    destruct (IH s' t1 eq_refl) as [Hn Hcalls]. split.
    + change (Sent ?r :: Printed ?l :: ?rest) with ([Sent r; Printed l] ++ rest).
      rewrite !submissions_app, Hn. unfold submissions at 1 2.
      rewrite submitted_names_pauses. simpl. lia.
    + lia.
Qed.

(** What the loop sends: one submission request per name, built from a
    name of the pools and a non-empty answer. *)
Lemma submit_loop_requests b a ses w todo i used s :
  ∃ nas : list (string * string),
    requests (submit_loop b a ses todo i used w s).2
    = map (λ na, submit_request a ses na.1 na.2) nas ∧
    submitted_names (submit_loop b a ses todo i used w s).2 = nas.*1 ∧
    Forall (λ na, na.1 ∈ all_names ∧ na.2 ≠ "") nas.
Proof.
  apply (submit_loop_induction b a ses w
           (λ _ _ _ _ r, ∃ nas : list (string * string),
              requests r.2 = map (λ na, submit_request a ses na.1 na.2) nas ∧
              submitted_names r.2 = nas.*1 ∧
              Forall (λ na, na.1 ∈ all_names ∧ na.2 ≠ "") nas)).
  - intros. by exists [].
  - intros. by exists [].
  - intros _ i' _ s0 x p e s' _ Hpool _ _.
    exists [(x, answer_at (ses_question ses) w p)]. split_and!; [done..|].
    constructor; [|done]. split; [done|]. apply answer_at_nonempty.
  - intros _ i' _ s0 x p s1 o s' t _ Hpool _ _ _ (nas & Hr & Hn & Hf).
    exists ((x, answer_at (ses_question ses) w p) :: nas). cbn [snd] in *.
    rewrite !requests_app, !submitted_names_app, requests_pauses,
      submitted_names_pauses, Hr, Hn. split_and!; [done..|].
    constructor; [|done]. split; [done|]. apply answer_at_nonempty.
Qed.

(** ** The session part, whatever comes back *)

(** Resolving the session sends one request, the session request; it calls
    [sys.exit] only on the reuse path, with status 1, after an HTTP error
    reply to the lookup and the line about it. *)
Lemma session_requests a w s :
  let '(o, s', t) := get_or_create_session a w s in
  requests t = [session_request a] ∧
  (∀ c, o = SysExit c →
     c = 1 ∧ opt_truthy (session_id a) = true ∧
     ∃ code txt json,
       backend w (calls s) (session_request a) = Response code txt json ∧
       is_success code = false ∧
       t = [ Sent (session_request a);
             Printed ("Error: Session " +:+ default "" (session_id a) +:+
                      " not found (" +:+ pretty code +:+ ")") ]).
Proof.
  unfold session_request, lookup_request, create_request.
  session_unfold.
  destruct (opt_truthy (session_id a)) eqn:Hpath; session_cases;
    (split; [done|]); intros c [=]; subst; eauto 10.
Qed.

(** ** How a run ends *)

Lemma submit_loop_at_most b a ses w todo i used s :
  (submissions (submit_loop b a ses todo i used w s).2 ≤ todo)%nat.
Proof.
  apply (submit_loop_induction b a ses w
           (λ todo _ _ _ r, (submissions r.2 ≤ todo)%nat)); intros; cbn [snd] in *.
  - done.
  - unfold submissions. simpl. lia.
  - unfold submissions. rewrite submitted_names_attempt. simpl. lia.
  - rewrite !submissions_app. unfold submissions at 1 2.
    rewrite submitted_names_attempt, submitted_names_pauses. simpl. lia.
Qed.

(** A run that returns obtained a session, ran the loop to its end and
    printed the summary. *)
Lemma run_ret_inv budget a w t :
  run budget a w = (Ret tt, t) →
  ∃ ses s1 t1 s2 t2,
    get_or_create_session a w (PState 0 0) = (Ret ses, s1, t1) ∧
    submit_loop budget a ses (Z.to_nat (count a)) 0 ∅ w s1 = (Ret tt, s2, t2) ∧
    t = t1 ++ header a :: t2 ++ summary_lines a ses.
Proof.
  unfold run. rewrite main_unfold.
  destruct (get_or_create_session a w (PState 0 0)) as [[[ses| | |] s1] t1]; try done.
  rewrite submit_responses_unfold.
  destruct (submit_loop budget a ses (Z.to_nat (count a)) 0 ∅ w s1)
    as [[[[]| | |] s2] t2] eqn:E; try done.
  intros [= <-]. by exists ses, s1, t1, s2, t2.
Qed.

(** X1.  A run whose process ends with status 0 has obtained a session,
    made all its [count] submissions and ended by printing the summary; no
    run stops early with status 0. *)
Theorem normal_exit_means_all_submitted (budget : nat) (a : args) (w : world)
    (t : list event) :
  run budget a w = (Ret tt, t) →
  ∃ ses s1 t1 body,
    get_or_create_session a w (PState 0 0) = (Ret ses, s1, t1) ∧
    t = body ++ summary_lines a ses ∧
    submissions body = Z.to_nat (count a) ∧
    submissions t = Z.to_nat (count a).
Proof.
  intros (ses & s1 & t1 & s2 & t2 & Hses & Hloop & ->)%run_ret_inv.
  exists ses, s1, t1, (t1 ++ header a :: t2).
  pose proof (session_events a w (PState 0 0)) as Hs. rewrite Hses in Hs.
  destruct Hs as (Hn & _ & _).
  apply submit_loop_ret in Hloop as [Hsub _].
  assert (submissions (t1 ++ header a :: t2) = Z.to_nat (count a)) as Hbody.
  { change (header a :: t2) with ([header a] ++ t2).
    rewrite !submissions_app, Hsub. unfold submissions at 1 2. by rewrite Hn. }
  split_and!; [done| |done|].
  - by rewrite <- app_assoc.
  - change (header a :: t2 ++ summary_lines a ses)
      with ((header a :: t2) ++ summary_lines a ses).
    rewrite app_assoc, submissions_app, Hbody.
    change (submissions (summary_lines a ses)) with 0%nat. lia.
Qed.

Lemma normal_exit_means_all_submitted_witness :
  ∃ ses s1 t1 body,
    get_or_create_session ex_args ex_world (PState 0 0) = (Ret ses, s1, t1) ∧
    (run 2 ex_args ex_world).2 = body ++ summary_lines ex_args ses ∧
    submissions body = 3%nat ∧
    submissions (run 2 ex_args ex_world).2 = 3%nat.
Proof.
  apply (normal_exit_means_all_submitted 2 ex_args ex_world).
  vm_compute. reflexivity.
Defined.

(** X2.  More than 600 submissions cannot be asked for: with a count
    above the 600 names the pools compose, no run returns, whatever the
    random generator, the backend and the redraw budget; the summary is
    never printed. *)
Theorem over_capacity_never_returns (budget : nat) (a : args) (w : world) :
  600 < count a →
  (run budget a w).1 ≠ Ret tt.
Proof.
  intros Hc Hret.
  destruct (run budget a w) as [o t] eqn:E. cbn [fst] in Hret. subst o.
  pose proof (at_most_600_submissions budget a w) as Hle. rewrite E in Hle.
  apply run_ret_inv in E as (ses & s1 & t1 & s2 & t2 & Hses & Hloop & ->).
  apply submit_loop_ret in Hloop as [Hsub _]. cbn [snd] in Hle.
  change (header a :: t2 ++ summary_lines a ses)
    with ([header a] ++ t2 ++ summary_lines a ses) in Hle.
  rewrite !submissions_app, Hsub in Hle. lia.
Qed.

Lemma over_capacity_never_returns_witness :
  (run 2 (ex_args_count 601) ex_world).1 ≠ Ret tt.
Proof.
  apply (over_capacity_never_returns 2 (ex_args_count 601) ex_world). reflexivity.
Defined.

Lemma submit_responses_no_exit budget a ses w s c s' t :
  submit_responses budget a ses w s ≠ (SysExit c, s', t).
Proof.
  rewrite submit_responses_unfold.
  destruct (submit_loop budget a ses (Z.to_nat (count a)) 0 ∅ w s)
    as [[[[]| | |] s2] t2] eqn:E; try done.
  by apply submit_loop_no_exit in E.
Qed.

(** X3.  The script calls [sys.exit] in one situation only: a run that
    ends that way is on the reuse path, its lookup came back with a
    non-success status, its exit status is 1, and all it did is the lookup
    and the "not found" line. *)
Theorem exit_only_for_unknown_session (budget : nat) (a : args) (w : world)
    (c : Z) (t : list event) :
  run budget a w = (SysExit c, t) →
  c = 1 ∧ opt_truthy (session_id a) = true ∧
  ∃ code txt json,
    backend w 0 (session_request a) = Response code txt json ∧
    is_success code = false ∧
    t = [ Sent (session_request a);
          Printed ("Error: Session " +:+ default "" (session_id a) +:+
                   " not found (" +:+ pretty code +:+ ")") ].
Proof.
  unfold run. rewrite main_unfold.
  pose proof (session_requests a w (PState 0 0)) as Hs.
  destruct (get_or_create_session a w (PState 0 0)) as [[[ses| | |] s1] t1]; try done.
  - destruct (submit_responses budget a ses w s1) as [[o s2] t2] eqn:E.
    intros [= -> <-]. by apply submit_responses_no_exit in E.
  - intros [= -> <-]. destruct Hs as [_ Hs]. by apply Hs.
Qed.

Lemma exit_only_for_unknown_session_witness :
  1 = 1 ∧ opt_truthy (session_id ex_args_reuse) = true ∧
  ∃ code txt json,
    backend ex_world_404 0 (session_request ex_args_reuse) = Response code txt json ∧
    is_success code = false ∧
    [ Sent (lookup_request ex_args_reuse "nosuch01");
      Printed "Error: Session nosuch01 not found (404)" ]
    = [ Sent (session_request ex_args_reuse);
        Printed ("Error: Session " +:+ default "" (session_id ex_args_reuse) +:+
                 " not found (" +:+ pretty code +:+ ")") ].
Proof.
  apply (exit_only_for_unknown_session 5 ex_args_reuse ex_world_404 1). by vm_compute.
Defined.

Lemma session_id_obtained a w ses s1 t1 :
  get_or_create_session a w (PState 0 0) = (Ret ses, s1, t1) →
  ses_id ses = session_id_in_use a w.
Proof.
  unfold session_id_in_use, create_request. session_unfold.
  destruct (opt_truthy (session_id a)) eqn:Hpath; session_cases;
    intros [= <- _ _]; cbn [ses_id]; unfold get_or_empty;
    repeat match goal with
           | H : @lookup _ _ (gmap _ _) _ _ _ = _ |- _ => rewrite H; clear H
           end; by simplify_eq/=.
Qed.

(** X4.  Every run sends the session request first (the lookup when a
    session id is given, the creation otherwise) and after it only
    submission requests: POSTs to base URL + "/api/sessions/" + session id +
    "/responses" (the configured session id, or the one the backend gave to
    the session it created), at most [count] of them, each carrying a name composed
    from the two pools and a non-empty answer.  Nothing is sent twice and
    nothing else is sent. *)
Theorem requests_of_a_run (budget : nat) (a : args) (w : world) :
  ∃ nas : list (string * string),
    requests (run budget a w).2
    = session_request a ::
      map (λ na, Request POST (norm_base_url a +:+ "/api/sessions/" +:+
                               session_id_in_use a w +:+ "/responses")
                   [("student_name", na.1); ("answer", na.2)]) nas ∧
    Forall (λ na, na.1 ∈ all_names ∧ na.2 ≠ "") nas ∧
    NoDup nas.*1 ∧
    (length nas ≤ Z.to_nat (count a))%nat.
Proof.
  pose proof (run_events budget a w) as H.
  pose proof (session_requests a w (PState 0 0)) as Hs.
  destruct (get_or_create_session a w (PState 0 0)) as [[o1 s1] t1] eqn:Hses.
  destruct Hs as [Hreq _].
  destruct H as [->|(ses & -> & ->)].
  { exists []. rewrite Hreq. split_and!; [done|done|constructor|simpl; lia]. }
  destruct (submit_responses_events budget a ses w s1) as (tail & -> & Htail).
  destruct (submit_loop_requests budget a ses w (Z.to_nat (count a)) 0 ∅ s1)
    as (nas & Hr & Hn & Hf).
  exists nas. rewrite <- (session_id_obtained a w ses s1 t1) by done.
  change (header a :: ?l) with ([header a] ++ l).
  rewrite !requests_app, Hreq, Hr.
  replace (requests tail) with (@nil request) by (by destruct Htail as [->| ->]).
  rewrite app_nil_r. split_and!; [done|done|..].
  - rewrite <- Hn. apply submit_loop_names.
  - pose proof (submit_loop_at_most budget a ses w (Z.to_nat (count a)) 0 ∅ s1) as Hle.
    unfold submissions in Hle. rewrite Hn, length_fmap in Hle. done.
Qed.

(** ** Failures while resolving the session *)

(** A call fails exactly when it ends in an exception. *)
Lemma failed_error_of r : failed r = true ↔ is_Some (error_of r).
Proof.
  destruct r as [code txt [data|msg]|cls msg]; simpl; try destruct (is_success code);
    simpl; split; try done; try (by eauto); by intros [].
Qed.

(** X5.  On the create path nothing catches a failed creation call: an
    error status, a transport failure or a body that is not JSON ends the
    run with that exception (a traceback, exit status 1) right after the
    call; nothing is printed and no submission is made. *)
Theorem create_failure_uncaught (budget : nat) (a : args) (w : world) (r : reply)
    (e : exn) :
  opt_truthy (session_id a) = false →
  backend w 0 (create_request a) = r →
  error_of r = Some e →
  run budget a w = (Raise e, [Sent (create_request a)]) ∧
  exit_status (run budget a w).1 = Some 1 ∧
  failed r = true.
Proof.
  intros Hpath Hr He.
  assert (run budget a w = (Raise e, [Sent (create_request a)])) as ->.
  { unfold run. rewrite main_unfold. session_unfold. rewrite Hpath.
    fold (create_request a). mstep. rewrite Hr.
    destruct r as [code txt json|cls msg]; mstep; simpl in He; [|by simplify_eq].
    destruct (is_success code); mstep; [|by simplify_eq].
    destruct json; mstep; by simplify_eq. }
  split_and!; [done..|]. apply failed_error_of. by rewrite He.
Qed.

Lemma create_failure_uncaught_witness :
  (run 2 ex_args ex_world_page
   = (Raise (Exception "JSONDecodeError" "Expecting value: line 1 column 1 (char 0)"),
      [Sent (create_request ex_args)]) ∧
   exit_status (run 2 ex_args ex_world_page).1 = Some 1 ∧
   failed (Response 200 "<html>It works!</html>" (NotJson expecting_value)) = true) ∧
  (run 2 ex_args ex_world_500
   = (Raise (HTTPStatusError 500 "Internal Server Error"), [Sent (create_request ex_args)]) ∧
   exit_status (run 2 ex_args ex_world_500).1 = Some 1 ∧
   failed (Response 500 "Internal Server Error" (NotJson expecting_value)) = true).
Proof.
  split.
  - apply (create_failure_uncaught 2 ex_args ex_world_page
             (Response 200 "<html>It works!</html>" (NotJson expecting_value))); done.
  - apply (create_failure_uncaught 2 ex_args ex_world_500
             (Response 500 "Internal Server Error" (NotJson expecting_value))); done.
Defined.

(** X6.  On the reuse path only an HTTP error reply to the lookup is
    caught: a transport failure, or a success reply whose body is not JSON,
    ends the run with that exception right after the lookup; the "not
    found" line is not printed and [sys.exit] is not called. *)
Theorem lookup_failure_uncaught (budget : nat) (a : args) (w : world) (sid : string)
    (r : reply) (e : exn) :
  session_id a = Some sid →
  sid ≠ "" →
  backend w 0 (lookup_request a sid) = r →
  error_of r = Some e →
  http_error r = false →
  run budget a w = (Raise e, [Sent (lookup_request a sid)]).
Proof.
  intros Hsid Hne Hr He Hhttp.
  unfold run. rewrite main_unfold. session_unfold. rewrite Hsid.
  replace (opt_truthy (Some sid)) with true by (by destruct sid).
  cbn [default from_option id]. fold (lookup_request a sid). mstep. rewrite Hr.
  destruct r as [code txt json|cls msg]; mstep; simpl in *; [|by simplify_eq].
  destruct (is_success code); [|done]. mstep.
  destruct json; mstep; by simplify_eq.
Qed.

Lemma lookup_failure_uncaught_witness :
  run 5 ex_args_reuse ex_world_page
  = (Raise (Exception "JSONDecodeError" "Expecting value: line 1 column 1 (char 0)"),
     [Sent (lookup_request ex_args_reuse "nosuch01")]) ∧
  run 5 ex_args_reuse ex_world_down
  = (Raise (Exception "ConnectError" "All connection attempts failed"),
     [Sent (lookup_request ex_args_reuse "nosuch01")]).
Proof.
  split.
  - apply (lookup_failure_uncaught 5 ex_args_reuse ex_world_page "nosuch01"
             (Response 200 "<html>It works!</html>" (NotJson expecting_value))); done.
  - apply (lookup_failure_uncaught 5 ex_args_reuse ex_world_down "nosuch01"
             (TransportFailure "ConnectError" "All connection attempts failed")); done.
Defined.

(** ** The reuse path *)

Lemma reuse_path_spec a w s sid code txt data :
  session_id a = Some sid →
  sid ≠ "" →
  backend w (calls s) (lookup_request a sid) = Response code txt (Json data) →
  is_success code = true →
  get_or_create_session a w s
  = (Ret (Session sid (get_or_empty data "question") None),
     PState (draws s) (S (calls s)),
     [ Sent (lookup_request a sid);
       Printed ("Using existing session: " +:+ sid);
       Printed ("  Question: " +:+ Str.take 60 (get_or_empty data "question") +:+
                (if (60 <? Str.len (get_or_empty data "question"))%nat then "..." else "")) ]).
Proof.
  intros Hsid Hne Hr Hcode. session_unfold. rewrite Hsid.
  replace (opt_truthy (Some sid)) with true by (by destruct sid).
  cbn [default from_option id]. fold (lookup_request a sid). mstep. rewrite Hr. mstep.
  rewrite Hcode. by mstep.
Qed.

(** Whether a generator supplies new names depends on its outputs only. *)
Lemma supplies_fresh_tape n limit w w' :
  (∀ p, tape w' p = tape w p) → supplies_fresh n limit w → supplies_fresh n limit w'.
Proof.
  intros Ht Hsup p used Hsize. destruct (Hsup p used Hsize) as (k & Hk & Hfresh).
  exists k. split; [done|]. unfold name_at in *. by rewrite !Ht.
Qed.

(** X7.  On the reuse path the script never knows an admin link: when the
    lookup succeeds and the run goes through (the random generator keeps
    supplying unused names, the pause does not fail), its last line is the
    placeholder link built from the frontend URL in effect and the
    configured session id, whatever the session holds. *)
Theorem reuse_path_summary (budget : nat) (a : args) (w : world) (sid : string)
    (code : Z) (txt : string) (data : gmap string string) :
  session_id a = Some sid →
  sid ≠ "" →
  backend w 0 (lookup_request a sid) = Response code txt (Json data) →
  is_success code = true →
  supplies_fresh budget (Z.to_nat (count a)) w →
  pause_elapses a w →
  ∃ body,
    run budget a w
    = (Ret tt,
       body ++ [ Printed done_line;
                 Printed ("  " +:+ norm_frontend_url a +:+ "/session/" +:+ sid +:+
                          "/admin?token=<your-admin-token>") ]) ∧
    submissions body = Z.to_nat (count a).
Proof.
  intros Hsid Hne Hr Hcode Hsup Hclock.
  pose proof (reuse_path_spec a w (PState 0 0) sid code txt data Hsid Hne Hr Hcode) as Hses.
  destruct (run_completes budget a w _ _ _ Hsup Hclock Hses)
    as (s' & t & E & -> & Hc & Hn).
  apply submit_loop_ret in E as [Hsub _].
  eexists (_ ++ header a :: t). split.
  - rewrite <- app_assoc. reflexivity.
  - change (header a :: t) with ([header a] ++ t).
    rewrite !submissions_app, Hsub. unfold submissions at 1 2. simpl. lia.
Qed.

Lemma reuse_path_summary_witness :
  ∃ body,
    run 2 (with_question (with_session_id ex_args (Some "nosuch01")) "ignored") ex_world_reuse
    = (Ret tt,
       body ++ [ Printed done_line;
                 Printed "  http://localhost:8000/session/nosuch01/admin?token=<your-admin-token>" ]) ∧
    submissions body = 3%nat.
Proof.
  apply (reuse_path_summary 2
           (with_question (with_session_id ex_args (Some "nosuch01")) "ignored")
           ex_world_reuse "nosuch01" 200 "" {[ "question" := "Why?" ]}); try done.
  apply (supplies_fresh_tape 2 3 ex_world); [done|apply ex_world_supplies_fresh].
Defined.

(** X8.  [--question] is ignored when [--session-id] is set: two runs that
    differ in their [--question] only are the same run, in every world. *)
Theorem question_ignored_on_reuse (budget : nat) (a : args) (q : string) (w : world) :
  opt_truthy (session_id a) = true →
  run budget (with_question a q) w = run budget a w.
Proof.
  intros Hpath. destruct a as [base fe sid q0 c d nd]. cbn [session_id] in Hpath.
  unfold run, main, get_or_create_session, submit_responses, submit_loop, iteration,
    submit_and_report, pause, summary, tag, with_question, norm_frontend_url,
    norm_base_url, effective_delay.
  cbn [base_url frontend_url session_id question count delay no_delay].
  by rewrite Hpath.
Qed.

Lemma question_ignored_on_reuse_witness :
  run 2 (with_question (with_session_id ex_args (Some "nosuch01")) "ignored") ex_world_reuse
  = run 2 (with_session_id ex_args (Some "nosuch01")) ex_world_reuse.
Proof.
  apply (question_ignored_on_reuse 2 (with_session_id ex_args (Some "nosuch01"))). done.
Defined.

(** ** The first iteration, the pauses, an empty loop *)

(** Resolving the session draws nothing from the random generator. *)
Lemma session_draws a w s :
  draws (get_or_create_session a w s).1.2 = draws s.
Proof. session_unfold. session_cases; done. Qed.

(** With no name used yet, the first draw is taken as it is. *)
Lemma first_name_accepted b w s :
  (name ← random_student_name; redraw b ∅ name) w s
  = (Ret (name_at w (draws s)), PState (S (S (draws s))) (calls s), []).
Proof.
  mstep. rewrite random_student_name_spec.
  destruct b; simpl; (destruct (decide (name_at w (draws s) ∈ (∅ : gset string)));
    [set_solver|done]).
Qed.

(** X9.  The first iteration never redraws: once a session is obtained
    and [count] is at least 1, the run makes a first submission, and it
    carries the very first name the random generator composes, whatever the
    generator, the backend and the redraw budget. *)
Theorem first_submission_always_made (budget : nat) (a : args) (w : world)
    (ses : session) (s1 : pstate) (t1 : list event) :
  get_or_create_session a w (PState 0 0) = (Ret ses, s1, t1) →
  1 ≤ count a →
  head (submitted_names (run budget a w).2) = Some (name_at w 0).
Proof.
  intros Hses Hc.
  pose proof (session_draws a w (PState 0 0)) as Hd. rewrite Hses in Hd. cbn in Hd.
  pose proof (session_events a w (PState 0 0)) as Hs. rewrite Hses in Hs.
  destruct Hs as (Hn & _ & _).
  pose proof (run_events budget a w) as H. rewrite Hses in H.
  destruct H as [E|(ses' & [= <-] & ->)].
  { exfalso. revert E. unfold run. rewrite main_unfold, Hses.
    destruct (submit_responses budget a ses w s1) as [[o s2] t2] eqn:E2. cbn [snd].
    pose proof (submit_responses_events budget a ses w s1) as (tail & Ht & _).
    rewrite E2 in Ht. cbn [snd] in Ht. rewrite Ht. intros E.
    apply (f_equal length) in E. rewrite length_app in E. simpl in E. lia. }
  destruct (submit_responses_events budget a ses w s1) as (tail & -> & _).
  destruct (Z.to_nat (count a)) as [|todo] eqn:Htodo; [lia|].
  destruct (submit_loop_found budget a ses todo 0 ∅ w s1 _ _
              (first_name_accepted budget w s1) eq_refl)
    as [p [(e & s' & -> & _)|(s2 & _ & _ & ->)]].
  - rewrite submitted_names_app, Hn. cbn [snd]. simpl. by rewrite Hd.
  - destruct (submit_loop budget a ses todo (0 + 1) _ w s2) as [[o s'] t].
    rewrite submitted_names_app, Hn. cbn [snd]. simpl. by rewrite Hd.
Qed.

Lemma first_submission_always_made_witness :
  head (submitted_names (run 0 ex_args ex_world).2) = Some (name_at ex_world 0).
Proof.
  apply (first_submission_always_made 0 ex_args ex_world ex_session _ _
           ex_session_obtained). done.
Defined.

(** X10.  A pause that fails is not caught: when a delay is in effect,
    [time.sleep] refuses it (a negative [--delay], for instance) and two
    submissions or more are asked for, the run ends with that exception
    right after its first submission and the line about it; the other
    submissions are not made and no summary is printed. *)
Theorem failing_pause_ends_run (budget : nat) (a : args) (w : world)
    (ses : session) (s1 : pstate) (t1 : list event) (e : exn) :
  get_or_create_session a w (PState 0 0) = (Ret ses, s1, t1) →
  float_truthy (effective_delay a) = true →
  clock w (effective_delay a) = Some e →
  2 ≤ count a →
  ∃ answer,
    run budget a w
    = (Raise e, t1 ++ header a :: attempt a ses w 1 0 (name_at w 0) answer) ∧
    submissions (run budget a w).2 = 1%nat.
Proof.
  intros Hses Hd He Hc.
  pose proof (session_draws a w (PState 0 0)) as Hdr. rewrite Hses in Hdr. cbn in Hdr.
  pose proof (session_events a w (PState 0 0)) as Hs. rewrite Hses in Hs.
  destruct Hs as (Hn & _ & Hcalls). specialize (Hcalls ses eq_refl). cbn in Hcalls.
  assert (pauses_after a 0 = [Slept (effective_delay a)]) as Hp.
  { unfold pauses_after. rewrite Hd.
    replace (0 <? count a - 1) with true by (symmetry; apply Z.ltb_lt; lia). done. }
  destruct (Z.to_nat (count a)) as [|todo] eqn:Htodo; [lia|].
  destruct (submit_loop_found budget a ses todo 0 ∅ w s1 _ _
              (first_name_accepted budget w s1) eq_refl)
    as [p [(e' & s' & E & He' & _)|(s2 & _ & Hcl & _)]].
  - rewrite He in He'. injection He' as <-.
    exists (answer_at (ses_question ses) w p).
    assert (run budget a w
            = (Raise e, t1 ++ header a ::
                 attempt a ses w 1 0 (name_at w 0) (answer_at (ses_question ses) w p))) as ->.
    { unfold run. rewrite main_unfold, Hses, submit_responses_unfold, Htodo, E.
      by rewrite Hdr, Hcalls. }
    split; [done|]. cbn [snd].
    change (header a :: ?l) with ([header a] ++ l).
    rewrite !submissions_app. unfold submissions. by rewrite Hn.
  - rewrite Hcl in He by (by rewrite Hp). done.
Qed.

Lemma failing_pause_ends_run_witness :
  ∃ answer,
    run 2 (Args "http://localhost:8000" None None "Why?" 3 (Finite (-1 # 2)) false) ex_world
    = (Raise (Exception "ValueError" "sleep length must be non-negative"),
       [ Sent (Request POST "http://localhost:8000/api/sessions" [("question", "Why?")]);
         Printed "Created session: k7f2m9qa";
         Printed "  Student URL: http://localhost:5173/session/k7f2m9qa";
         Printed "  Admin URL:   http://localhost:8000/session/k7f2m9qa/admin?token=tok" ]
       ++ header (Args "http://localhost:8000" None None "Why?" 3 (Finite (-1 # 2)) false)
       :: attempt (Args "http://localhost:8000" None None "Why?" 3 (Finite (-1 # 2)) false)
            (Session "k7f2m9qa" "Why?"
               (Some "http://localhost:8000/session/k7f2m9qa/admin?token=tok"))
            ex_world 1 0 (name_at ex_world 0) answer) ∧
    submissions
      (run 2 (Args "http://localhost:8000" None None "Why?" 3 (Finite (-1 # 2)) false)
           ex_world).2 = 1%nat.
Proof.
  apply (failing_pause_ends_run 2
           (Args "http://localhost:8000" None None "Why?" 3 (Finite (-1 # 2)) false)
           ex_world _ (PState 0 1)); done.
Defined.

(** X11.  With a [count] of zero or less the loop body never runs: once
    the session is obtained, the run prints the header and the summary and
    returns, without a submission, a draw or a pause. *)
Theorem no_iteration_for_nonpositive_count (budget : nat) (a : args) (w : world)
    (ses : session) (s1 : pstate) (t1 : list event) :
  get_or_create_session a w (PState 0 0) = (Ret ses, s1, t1) →
  count a ≤ 0 →
  run budget a w = (Ret tt, t1 ++ header a :: summary_lines a ses).
Proof.
  intros Hses Hc. unfold run.
  rewrite main_unfold, Hses, submit_responses_unfold.
  by replace (Z.to_nat (count a)) with 0%nat by lia.
Qed.

Lemma no_iteration_for_nonpositive_count_witness :
  run 2 (ex_args_count (-4)) ex_world
  = (Ret tt,
     [ Sent (create_request (ex_args_count (-4)));
       Printed "Created session: k7f2m9qa";
       Printed "  Student URL: http://localhost:5173/session/k7f2m9qa";
       Printed "  Admin URL:   http://localhost:8000/session/k7f2m9qa/admin?token=tok" ]
     ++ header (ex_args_count (-4)) :: summary_lines (ex_args_count (-4)) ex_session).
Proof.
  apply (no_iteration_for_nonpositive_count 2 (ex_args_count (-4)) ex_world ex_session
           (PState 0 1)); done.
Defined.

(** When the loop returns, it has paused once between two consecutive
    iterations, for the delay in effect. *)
Lemma submit_loop_pauses b a ses w todo i used s s' t :
  float_truthy (effective_delay a) = true →
  submit_loop b a ses todo i used w s = (Ret tt, s', t) →
  i + Z.of_nat todo = count a →
  pauses t = replicate (todo - 1) (Slept (effective_delay a)).
Proof.
  intros Hd. revert s' t.
  apply (submit_loop_induction b a ses w
           (λ todo i used s r, ∀ s' t, r = (Ret tt, s', t) →
              i + Z.of_nat todo = count a →
              pauses t = replicate (todo - 1) (Slept (effective_delay a)))); try done.
  - by intros ? ? ? ? ? [= <- <-].
  - intros todo' i' used' s0 x p s1 o s1' t1 _ _ _ _ _ IH s' t E Hi.
    injection E as Ho Hs Ht. subst o s1' t.
    specialize (IH s' t1 eq_refl ltac:(lia)).
    change (Sent ?r :: Printed ?l :: ?rest) with ([Sent r; Printed l] ++ rest).
    rewrite !pauses_app, IH. unfold pauses_after. rewrite Hd.
    destruct todo' as [|todo'].
    + replace (i' <? count a - 1) with false by (symmetry; apply Z.ltb_ge; lia). done.
    + replace (i' <? count a - 1) with true by (symmetry; apply Z.ltb_lt; lia).
      simpl. by rewrite Nat.sub_0_r.
Qed.

(** X12.  A run that returns has paused exactly [count - 1] times, each
    time for the delay in effect, when that delay is not zero, and not at
    all when it is zero. *)
Theorem pauses_of_a_complete_run (budget : nat) (a : args) (w : world) (t : list event) :
  run budget a w = (Ret tt, t) →
  pauses t
  = if float_truthy (effective_delay a)
    then replicate (Z.to_nat (count a) - 1) (Slept (effective_delay a))
    else [].
Proof.
  intros (ses & s1 & t1 & s2 & t2 & Hses & Hloop & ->)%run_ret_inv.
  pose proof (session_events a w (PState 0 0)) as Hs. rewrite Hses in Hs.
  destruct Hs as (_ & Hp & _).
  change (header a :: ?l) with ([header a] ++ l).
  rewrite !pauses_app, Hp. simpl.
  change (pauses (summary_lines a ses)) with (@nil event). rewrite app_nil_r.
  destruct (float_truthy (effective_delay a)) eqn:Hd.
  - destruct (Z.to_nat (count a)) as [|todo] eqn:Htodo.
    + simpl in Hloop. by injection Hloop as _ <-.
    + apply (submit_loop_pauses budget a ses w _ 0 ∅ s1 s2); [done..|lia].
  - pose proof (submit_loop_no_delay budget a ses w Hd (Z.to_nat (count a)) 0 ∅ s1) as H.
    by rewrite Hloop in H.
Qed.

Lemma pauses_of_a_complete_run_witness :
  pauses (run 2 ex_args ex_world).2 = [Slept (Finite (1 # 2)); Slept (Finite (1 # 2))].
Proof.
  apply (pauses_of_a_complete_run 2 ex_args ex_world). by vm_compute.
Defined.

(** ** The line about each submission *)

Lemma append_inj_l s x y : s +:+ x = s +:+ y → x = y.
Proof. induction s as [|c s IH]; [done|]. intros [= E]. by apply IH. Qed.

Lemma names_begin_like_names x : x ∈ all_names → begins_like_a_name x = true.
Proof.
  intros Hx. assert (forallb begins_like_a_name all_names = true) as H by (by vm_compute).
  rewrite forallb_forall in H. by apply H, list_elem_of_In.
Qed.

Lemma report_line_ok a i x answer r :
  failed r = false → report_line a i x answer r = success_line a i x answer.
Proof.
  unfold failed, report_line, success_line.
  destruct r as [code txt json|cls msg]; [|done].
  destruct (is_success code); [|done]. by destruct json.
Qed.

(** The line about a successful submission cannot be taken for a failure
    line: no name of the pools begins with "FAILED: " or "ERROR: ". *)
Lemma success_line_not_failure a i x answer :
  x ∈ all_names → ¬ is_failure_line a i (success_line a i x answer).
Proof.
  intros Hx%names_begin_like_names [detail [E|E]]; unfold success_line in E;
    apply append_inj_l in E;
    destruct x as [|c1 [|c2 x]]; try done; simpl in E; injection E as -> -> _; done.
Qed.

Lemma submit_loop_reports b a ses w todo i used s s' t :
  submit_loop b a ses todo i used w s = (Ret tt, s', t) →
  ∀ j, (j < todo)%nat →
    ∃ x answer pre post,
      t = pre ++ attempt a ses w (j + calls s) (i + Z.of_nat j) x answer ++ post ∧
      submissions pre = j ∧ x ∈ all_names.
Proof.
  revert s' t.
  apply (submit_loop_induction b a ses w
           (λ todo i used s r, ∀ s' t, r = (Ret tt, s', t) →
              ∀ j, (j < todo)%nat →
                ∃ x answer pre post,
                  t = pre ++ attempt a ses w (j + calls s) (i + Z.of_nat j) x answer ++ post ∧
                  submissions pre = j ∧ x ∈ all_names)); try done.
  - intros ? ? ? ? ? _ j Hj. lia.
  - intros todo' i' used' s0 x p s1 o s1' t1 _ Hpool Hc _ _ IH s' t E [|j] Hj;
      injection E as Ho Hs Ht; subst o s1' t.
    + exists x, (answer_at (ses_question ses) w p), [], (pauses_after a i' ++ t1).
      rewrite Z.add_0_r. done.
    + destruct (IH s' t1 eq_refl j ltac:(lia)) as (y & answer & pre & post & -> & Hpre & Hy).
      exists y, answer,
        (attempt a ses w (calls s0) i' x (answer_at (ses_question ses) w p)
         ++ pauses_after a i' ++ pre), post.
      split_and!; [|  |done].
      * rewrite Hc. unfold attempt. simpl. rewrite <- !app_assoc.
        by replace (i' + 1 + Z.of_nat j) with (i' + Z.of_nat (S j)) by lia;
           replace (j + S (calls s0))%nat with (S (j + calls s0)) by lia.
      * rewrite !submissions_app. unfold submissions at 1 2.
        rewrite submitted_names_attempt, submitted_names_pauses. simpl. lia.
Qed.

(** X13.  In a run that returns, every submission is reported by the line
    printed right after it, tagged with its rank: the k-th submission (it
    is call k of the run) is followed by a "FAILED:" or "ERROR:" line when
    its call failed, and by the line showing the name and the first 50
    characters of the answer when it succeeded; the two kinds of line cannot
    be confused. *)
Theorem each_submission_reported (budget : nat) (a : args) (w : world)
    (t : list event) (k : Z) :
  run budget a w = (Ret tt, t) →
  1 ≤ k ≤ count a →
  ∃ ses pre x answer line post,
    t = pre ++ [Sent (submit_request a ses x answer); Printed line] ++ post ∧
    submissions pre = Z.to_nat (k - 1) ∧
    if failed (backend w (Z.to_nat k) (submit_request a ses x answer))
    then is_failure_line a (k - 1) line
    else line = success_line a (k - 1) x answer ∧ ¬ is_failure_line a (k - 1) line.
Proof.
  intros (ses & s1 & t1 & s2 & t2 & Hses & Hloop & ->)%run_ret_inv Hk.
  pose proof (session_events a w (PState 0 0)) as Hs. rewrite Hses in Hs.
  destruct Hs as (Hn & _ & Hcalls). specialize (Hcalls ses eq_refl). cbn in Hcalls.
  destruct (submit_loop_reports budget a ses w _ _ _ _ _ _ Hloop (Z.to_nat (k - 1))
              ltac:(lia)) as (x & answer & pre & post & -> & Hpre & Hx).
  rewrite Hcalls.
  replace (Z.to_nat (k - 1) + 1)%nat with (Z.to_nat k) by lia.
  replace (0 + Z.of_nat (Z.to_nat (k - 1))) with (k - 1) by lia.
  exists ses, (t1 ++ header a :: pre), x, answer,
    (report_line a (k - 1) x answer (backend w (Z.to_nat k) (submit_request a ses x answer))),
    (post ++ summary_lines a ses).
  split_and!.
  - unfold attempt. by rewrite <- !app_assoc.
  - change (header a :: pre) with ([header a] ++ pre).
    rewrite !submissions_app. unfold submissions at 1 2. rewrite Hn. simpl. lia.
  - destruct (failed _) eqn:Hf.
    + by apply report_line_failed.
    + rewrite report_line_ok by done. split; [done|]. by apply success_line_not_failure.
Qed.

Lemma each_submission_reported_witness :
  ∃ ses pre x answer line post,
    (run 2 ex_args ex_world).2
    = pre ++ [Sent (submit_request ex_args ses x answer); Printed line] ++ post ∧
    submissions pre = Z.to_nat (3 - 1) ∧
    if failed (backend ex_world (Z.to_nat 3) (submit_request ex_args ses x answer))
    then is_failure_line ex_args (3 - 1) line
    else line = success_line ex_args (3 - 1) x answer ∧
         ¬ is_failure_line ex_args (3 - 1) line.
Proof.
  apply (each_submission_reported 2 ex_args ex_world _ 3); [by vm_compute|done].
Defined.

(** ** The shape of an answer *)

Lemma all_parts_spec P st bo cl :
  all_parts P = true →
  st ∈ ANSWER_STARTERS → bo ∈ ANSWER_BODIES → cl ∈ ANSWER_CLOSERS →
  P st bo cl = true.
Proof.
  unfold all_parts. rewrite forallb_forall. intros H Hst Hbo Hcl.
  apply list_elem_of_In in Hst, Hbo, Hcl.
  specialize (H st Hst). rewrite forallb_forall in H.
  specialize (H bo Hbo). rewrite forallb_forall in H. by apply H.
Qed.

Lemma compose_parts st bo cl :
  st ∈ ANSWER_STARTERS → bo ∈ ANSWER_BODIES → cl ∈ ANSWER_CLOSERS →
  compose [st; bo; cl] = st +:+ " " +:+ bo +:+ closer_part cl.
Proof.
  intros Hst Hbo Hcl. apply String.eqb_eq.
  apply (all_parts_spec
           (λ st bo cl, String.eqb (compose [st; bo; cl])
                          (st +:+ " " +:+ bo +:+ closer_part cl))); [by vm_compute|done..].
Qed.

Lemma lower_first_starter st rest :
  st ∈ ANSWER_STARTERS → lower_first (st +:+ rest) = lower_first st +:+ rest.
Proof.
  intros Hst. apply list_elem_of_In in Hst. simpl in Hst.
  repeat (destruct Hst as [<-|Hst]; [done|]). done.
Qed.

Lemma append_assoc x y z : (x +:+ y) +:+ z = x +:+ y +:+ z.
Proof.
  induction x as [|c x IH]; [done|].
  change (String c ((x +:+ y) +:+ z) = String c (x +:+ y +:+ z)). by rewrite IH.
Qed.

Lemma contains_prefix sub s : String.prefix sub s = true → Str.contains sub s = true.
Proof. destruct s; simpl; by intros ->. Qed.

Lemma contains_app sub x y : Str.contains sub (x +:+ sub +:+ y) = true.
Proof.
  induction x as [|c x IH].
  - change ("" +:+ sub +:+ y) with (sub +:+ y). apply contains_prefix, prefix_app.
  - change (String c x +:+ sub +:+ y) with (String c (x +:+ sub +:+ y)).
    simpl. rewrite IH. apply orb_true_r.
Qed.

(** X14.  An answer is made of a starter, a space, a body and, when the
    closer drawn is not empty, a space and the closer: the parts are
    separated by single spaces, an empty closer leaves no space behind, and
    [strip] finds nothing to remove.  The question-specific flavour puts
    one of the three prefixes in front and lowers the first letter of the
    starter, nothing else.  In particular the body drawn is always part of
    the answer. *)
Theorem answer_shape (question : string) (w : world) (s : pstate) :
  ∃ st bo cl answer s',
    st ∈ ANSWER_STARTERS ∧ bo ∈ ANSWER_BODIES ∧ cl ∈ ANSWER_CLOSERS ∧
    random_answer question w s = (Ret answer, s', []) ∧
    answer = (if flavoured question w (draws s)
              then pick refs (tape w (4 + draws s)%nat) +:+ lower_first st
              else st)
             +:+ " " +:+ bo +:+ closer_part cl ∧
    Str.contains bo answer = true.
Proof.
  exists (pick ANSWER_STARTERS (tape w (draws s))),
         (pick ANSWER_BODIES (tape w (S (draws s)))),
         (pick ANSWER_CLOSERS (tape w (S (S (draws s))))),
         (answer_at question w (draws s)).
  eexists. split_and!; try (by apply pick_in).
  - by rewrite random_answer_spec.
  - unfold answer_at, plain_at. rewrite compose_parts by (by apply pick_in).
    destruct (flavoured question w (draws s)); [|done].
    rewrite lower_first_starter by (by apply pick_in).
    by rewrite append_assoc.
  - unfold answer_at, plain_at. rewrite compose_parts by (by apply pick_in).
    destruct (flavoured question w (draws s)).
    + rewrite lower_first_starter by (by apply pick_in).
      rewrite <- (append_assoc (lower_first _) " "), <- (append_assoc (pick refs _)).
      apply contains_app.
    + rewrite <- (append_assoc _ " "). apply contains_app.
Qed.

(** ** The redraw budget *)

Lemma redraw_mono m used w : ∀ n name s,
  (redraw n used name w s).1.1 ≠ Spin →
  redraw (n + m) used name w s = redraw n used name w s.
Proof.
  induction n as [|n IH]; intros name s H.
  - simpl in *. destruct (decide (name ∈ used)) as [Hin|Hnin]; [done|].
    destruct m; simpl; by destruct (decide (name ∈ used)).
  - simpl in *. destruct (decide (name ∈ used)) as [Hin|Hnin]; [|done].
    revert H. mstep. rewrite random_student_name_spec.
    intros H. rewrite IH; [done|].
    by destruct (redraw n used (name_at w (draws s)) w _) as [[[]?]?].
Qed.

Lemma iteration_mono b m a ses i used w s :
  (iteration b a ses i used w s).1.1 ≠ Spin →
  iteration (b + m) a ses i used w s = iteration b a ses i used w s.
Proof.
  unfold iteration. mstep. rewrite random_student_name_spec.
  intros H. rewrite redraw_mono; [done|].
  by destruct (redraw b used (name_at w (draws s)) w _) as [[[]?]?].
Qed.

Lemma submit_loop_mono b m a ses w : ∀ todo i used s,
  (submit_loop b a ses todo i used w s).1.1 ≠ Spin →
  submit_loop (b + m) a ses todo i used w s = submit_loop b a ses todo i used w s.
Proof.
  induction todo as [|todo IH]; intros i used s H; [done|].
  simpl in *. revert H. mstep. intros H.
  rewrite iteration_mono by (by destruct (iteration b a ses i used w s) as [[[]?]?]).
  destruct (iteration b a ses i used w s) as [[[used'| | |] s1] t1]; try done.
  rewrite IH; [done|].
  by destruct (submit_loop b a ses todo (i + 1) used' w s1) as [[[]?]?].
Qed.

(** The redraw budget only bounds how long a run is watched: a run that
    is not cut while redrawing names is the same run under every larger
    budget. *)
Lemma budget_is_only_a_bound (budget more : nat) (a : args) (w : world) :
  (run budget a w).1 ≠ Spin →
  run (budget + more) a w = run budget a w.
Proof.
  unfold run. rewrite !main_unfold.
  destruct (get_or_create_session a w (PState 0 0)) as [[[ses| | |] s1] t1]; try done.
  rewrite !submit_responses_unfold. intros H.
  rewrite submit_loop_mono; [done|].
  by destruct (submit_loop budget a ses (Z.to_nat (count a)) 0 ∅ w s1) as [[[[]| | |]?]?].
Qed.

(** ** The names *)

(** X16.  The two pools compose 600 names and no two pairs compose the
    same one (Taylor, which is in both pools, included);
    [random_student_name] always returns one of them, made of a first name,
    one space and a last name, and takes two outputs of the generator. *)
Theorem name_pool (w : world) (s : pstate) :
  NoDup all_names ∧ length all_names = 600%nat ∧
  ∃ first last,
    first ∈ FIRST_NAMES ∧ last ∈ LAST_NAMES ∧
    first +:+ " " +:+ last ∈ all_names ∧
    random_student_name w s
    = (Ret (first +:+ " " +:+ last), PState (2 + draws s) (calls s), []).
Proof.
  split_and!.
  - apply (bool_decide_unpack _). by vm_compute.
  - done.
  - exists (pick FIRST_NAMES (tape w (draws s))), (pick LAST_NAMES (tape w (S (draws s)))).
    split_and!; try (by apply pick_in).
    + apply name_at_in_all_names.
    + apply random_student_name_spec.
Qed.

(** ** The question *)

(** X17.  [random_answer] looks at its question only to see whether it is
    empty: two questions that are both empty or both non-empty get the same
    answer from the same state of the random generator. *)
Theorem question_matters_by_emptiness_only (q1 q2 : string) (w : world) (s : pstate) :
  Str.truthy q1 = Str.truthy q2 →
  random_answer q1 w s = random_answer q2 w s.
Proof.
  intros H. rewrite !random_answer_spec.
  unfold answer_at, answer_draws, flavoured. by rewrite H.
Qed.

Lemma question_matters_by_emptiness_only_witness :
  random_answer "Why?" ex_world (PState 0 0)
  = random_answer "What is one key takeaway from today's class?" ex_world (PState 0 0).
Proof.
  apply (question_matters_by_emptiness_only "Why?"
           "What is one key takeaway from today's class?"). done.
Defined.

Lemma submitted_answers_app t1 t2 :
  submitted_answers (t1 ++ t2) = submitted_answers t1 ++ submitted_answers t2.
Proof. apply omap_app. Qed.

Lemma submitted_answers_pauses a i : submitted_answers (pauses_after a i) = [].
Proof. unfold pauses_after. by destruct (_ && _). Qed.

(** The answers the loop submits are answers to the session's question. *)
Lemma submit_loop_answers b a ses w todo i used s :
  Forall (λ answer, ∃ p, answer = answer_at (ses_question ses) w p)
    (submitted_answers (submit_loop b a ses todo i used w s).2).
Proof.
  apply (submit_loop_induction b a ses w
           (λ _ _ _ _ r, Forall (λ answer, ∃ p, answer = answer_at (ses_question ses) w p)
                           (submitted_answers r.2))); intros; cbn [snd] in *.
  - constructor.
  - constructor.
  - constructor; [by eexists|constructor].
  - rewrite !submitted_answers_app, submitted_answers_pauses.
    constructor; [by eexists|done].
Qed.

Lemma session_no_answers a w s :
  submitted_answers (get_or_create_session a w s).2 = [].
Proof. session_unfold. session_cases; done. Qed.

(** X18.  On the reuse path the answers are flavoured by the question the
    backend holds for the session: when the session it returns has no
    question field, the question is taken to be empty and no answer of the
    run gets a referential prefix, whatever [--question] says. *)
Theorem no_flavour_without_question (budget : nat) (a : args) (w : world) (sid : string)
    (code : Z) (txt : string) (data : gmap string string) :
  session_id a = Some sid →
  sid ≠ "" →
  backend w 0 (lookup_request a sid) = Response code txt (Json data) →
  is_success code = true →
  data !! "question" = None →
  Forall (λ answer, has_ref_prefix answer = false) (submitted_answers (run budget a w).2).
Proof.
  intros Hsid Hne Hr Hcode Hq.
  pose proof (reuse_path_spec a w (PState 0 0) sid code txt data Hsid Hne Hr Hcode) as Hses.
  unfold get_or_empty in Hses. rewrite Hq in Hses.
  cbn [default from_option draws calls] in Hses.
  pose proof (session_no_answers a w (PState 0 0)) as Hna. rewrite Hses in Hna.
  cbn [snd] in Hna.
  pose proof (run_events budget a w) as H. rewrite Hses in H.
  destruct H as [->|(ses & Hs & ->)]; [rewrite Hna; constructor|].
  injection Hs as <-.
  destruct (submit_responses_events budget a (Session sid "" None) w (PState 0 1))
    as (tail & -> & Htail).
  change (header a :: ?l) with ([header a] ++ l).
  rewrite !submitted_answers_app, Hna.
  replace (submitted_answers tail) with (@nil string) by (by destruct Htail as [->| ->]).
  simpl. rewrite app_nil_r.
  eapply Forall_impl; [apply submit_loop_answers|].
  intros answer [p ->]. cbn [ses_question].
  by rewrite has_ref_prefix_answer_at.
Qed.

Lemma no_flavour_without_question_witness :
  Forall (λ answer, has_ref_prefix answer = false)
    (submitted_answers (run 2 (with_session_id ex_args (Some "nosuch01"))
                          ex_world_no_question).2).
Proof.
  apply (no_flavour_without_question 2 (with_session_id ex_args (Some "nosuch01"))
           ex_world_no_question "nosuch01" 200 "" ∅); done.
Defined.

(** ** More of the create path *)

(** What a run is when a session is obtained and the run goes through:
    the session part, the count submissions, the "Done!" line and the
    link. *)
Lemma run_with_session budget a w ses s1 t1 :
  supplies_fresh budget (Z.to_nat (count a)) w →
  pause_elapses a w →
  get_or_create_session a w (PState 0 0) = (Ret ses, s1, t1) →
  ∃ body,
    run budget a w
    = (Ret tt, t1 ++ body ++ [Printed done_line; Printed (link_line a ses)]) ∧
    submissions body = Z.to_nat (count a).
Proof.
  intros Hsup Hclock Hses.
  destruct (run_completes budget a w ses s1 t1 Hsup Hclock Hses)
    as (s' & t & E & -> & Hc & Hn).
  destruct (submit_loop_completes budget a ses w _ Hsup Hclock
              (Z.to_nat (count a)) 0 ∅ s1) as (s'' & t' & E' & Hsub & _).
  { rewrite size_empty. lia. }
  rewrite E in E'. injection E' as <- <-.
  exists (header a :: t). split; [done|].
  change (header a :: t) with ([header a] ++ t).
  rewrite submissions_app, Hsub. unfold submissions at 1. simpl. lia.
Qed.

(** C5, amended.  On the create path, when the reply to the creation
    carries a session id, a student URL and a non-empty admin token, the
    admin link is frontend URL + "/session/" + session id + "/admin?token="
    + admin token, with the frontend URL in effect (the configured one, or
    the base URL when none is configured, trailing slashes stripped).
    Every such run starts with the creation call and the three lines about
    it, the third being "  Admin URL:   " + link when the frontend URL in
    effect is not empty, and "  Admin URL:   " + the admin URL the backend
    sent when it is empty.  Every such run that returns, that is, every one
    that prints the summary, has made its [count] submissions in between
    and ends with the "Done!" line and "  " + link. *)
Theorem admin_link_format (budget : nat) (a : args) (w : world) (code : Z) (txt : string)
    (data : gmap string string) (sid student_url tok url : string) :
  opt_truthy (session_id a) = false →
  backend w 0 (create_request a) = Response code txt (Json data) →
  is_success code = true →
  data !! "session_id" = Some sid →
  data !! "student_url" = Some student_url →
  data !! "admin_token" = Some tok →
  tok ≠ "" →
  (norm_frontend_url a = "" → data !! "admin_url" = Some url) →
  (∃ rest,
     (run budget a w).2
     = [ Sent (create_request a);
         Printed ("Created session: " +:+ sid);
         Printed ("  Student URL: " +:+ student_url);
         Printed ("  Admin URL:   " +:+
                  (if Str.truthy (norm_frontend_url a)
                   then norm_frontend_url a +:+ "/session/" +:+ sid +:+ "/admin?token=" +:+ tok
                   else url)) ]
       ++ rest) ∧
  ((run budget a w).1 = Ret tt →
   ∃ body,
     (run budget a w).2
     = [ Sent (create_request a);
         Printed ("Created session: " +:+ sid);
         Printed ("  Student URL: " +:+ student_url);
         Printed ("  Admin URL:   " +:+
                  (if Str.truthy (norm_frontend_url a)
                   then norm_frontend_url a +:+ "/session/" +:+ sid +:+ "/admin?token=" +:+ tok
                   else url)) ]
       ++ body ++
       [ Printed done_line;
         Printed ("  " +:+ norm_frontend_url a +:+ "/session/" +:+ sid +:+
                  "/admin?token=" +:+ tok) ] ∧
     submissions body = Z.to_nat (count a)).
Proof.
  intros Hpath Hreply Hcode Hsid Hurl Htok Hne Hadmin.
  pose proof (create_path_spec a w (PState 0 0) code txt data sid student_url
                Hpath Hreply Hcode Hsid Hurl) as E.
  rewrite Htok in E. cbn [default from_option id] in E.
  rewrite (truthy_nonempty tok) in E by done. cbv zeta in E.
  fold (admin_link_of (norm_frontend_url a) sid tok).
  assert (get_or_create_session a w (PState 0 0)
          = (Ret (Session sid (question a) (Some (admin_link_of (norm_frontend_url a) sid tok))),
             PState 0 1,
             [ Sent (create_request a);
               Printed ("Created session: " +:+ sid);
               Printed ("  Student URL: " +:+ student_url);
               Printed ("  Admin URL:   " +:+
                        (if Str.truthy (norm_frontend_url a)
                         then admin_link_of (norm_frontend_url a) sid tok
                         else url)) ])) as Hses.
  { destruct (Str.truthy (norm_frontend_url a)) eqn:Hf; [exact E|].
    rewrite Hadmin in E by (by destruct (norm_frontend_url a)). exact E. }
  split.
  - by apply (run_starts_with_session budget a w _ _ _ Hses).
  - destruct (run budget a w) as [o t] eqn:Hrun. cbn [fst snd]. intros ->.
    apply run_ret_inv in Hrun as (ses & s1 & t1 & s2 & t2 & Hs & Hloop & ->).
    rewrite Hses in Hs. injection Hs as <- <- <-.
    apply submit_loop_ret in Hloop as [Hsub _].
    exists (header a :: t2). split.
    + unfold summary_lines, link_line.
      cbn [ses_admin_url opt_truthy default from_option id].
      by rewrite admin_link_truthy.
    + change (header a :: t2) with ([header a] ++ t2).
      rewrite submissions_app, Hsub. unfold submissions at 1. simpl. lia.
Qed.

Lemma admin_link_format_witness :
  ((∃ rest,
      (run 2 ex_args ex_world).2
      = [ Sent (create_request ex_args);
          Printed "Created session: k7f2m9qa";
          Printed "  Student URL: http://localhost:5173/session/k7f2m9qa";
          Printed "  Admin URL:   http://localhost:8000/session/k7f2m9qa/admin?token=tok" ]
        ++ rest) ∧
   (run 2 ex_args ex_world).1 = Ret tt ∧
   ∃ body,
     (run 2 ex_args ex_world).2
     = [ Sent (create_request ex_args);
         Printed "Created session: k7f2m9qa";
         Printed "  Student URL: http://localhost:5173/session/k7f2m9qa";
         Printed "  Admin URL:   http://localhost:8000/session/k7f2m9qa/admin?token=tok" ]
       ++ body ++
       [ Printed done_line;
         Printed "  http://localhost:8000/session/k7f2m9qa/admin?token=tok" ] ∧
     submissions body = 3%nat) ∧
  ((∃ rest,
      (run 2 (ex_args_frontend (Some "/")) ex_world).2
      = [ Sent (create_request (ex_args_frontend (Some "/")));
          Printed "Created session: k7f2m9qa";
          Printed "  Student URL: http://localhost:5173/session/k7f2m9qa";
          Printed "  Admin URL:   http://localhost:5173/session/k7f2m9qa/admin?token=tok" ]
        ++ rest) ∧
   (run 2 (ex_args_frontend (Some "/")) ex_world).1 = Ret tt ∧
   ∃ body,
     (run 2 (ex_args_frontend (Some "/")) ex_world).2
     = [ Sent (create_request (ex_args_frontend (Some "/")));
         Printed "Created session: k7f2m9qa";
         Printed "  Student URL: http://localhost:5173/session/k7f2m9qa";
         Printed "  Admin URL:   http://localhost:5173/session/k7f2m9qa/admin?token=tok" ]
       ++ body ++
       [ Printed done_line; Printed "  /session/k7f2m9qa/admin?token=tok" ] ∧
     submissions body = 3%nat).
Proof.
  assert ((run 2 ex_args ex_world).1 = Ret tt) as Hret1 by (vm_compute; reflexivity).
  assert ((run 2 (ex_args_frontend (Some "/")) ex_world).1 = Ret tt) as Hret2
    by (vm_compute; reflexivity).
  split.
  - destruct (admin_link_format 2 ex_args ex_world 200 "" ex_session_info
                "k7f2m9qa" "http://localhost:5173/session/k7f2m9qa" "tok" ""
                eq_refl eq_refl eq_refl eq_refl eq_refl eq_refl
                ltac:(discriminate) ltac:(discriminate)) as [Hline Hsummary].
    split_and!; [exact Hline|exact Hret1|exact (Hsummary Hret1)].
  - destruct (admin_link_format 2 (ex_args_frontend (Some "/")) ex_world 200 ""
                ex_session_info
                "k7f2m9qa" "http://localhost:5173/session/k7f2m9qa" "tok"
                "http://localhost:5173/session/k7f2m9qa/admin?token=tok"
                eq_refl eq_refl eq_refl eq_refl eq_refl eq_refl
                ltac:(discriminate) (λ _, eq_refl)) as [Hline Hsummary].
    split_and!; [exact Hline|exact Hret2|exact (Hsummary Hret2)].
Defined.

(** C5, as stated, fails: with [--frontend-url /] the frontend URL in
    effect is empty, and the reply carrying session id k7f2m9qa and admin
    token tok, the "Admin URL" line shows the admin URL the backend sent,
    which is built neither from "/" nor from the stripped frontend URL. *)
Lemma admin_link_from_backend :
  ex_session_info !! "session_id" = Some "k7f2m9qa" ∧
  ex_session_info !! "admin_token" = Some "tok" ∧
  take 3 (printed (run 2 (ex_args_frontend (Some "/")) ex_world).2)
  = [ "Created session: k7f2m9qa";
      "  Student URL: http://localhost:5173/session/k7f2m9qa";
      "  Admin URL:   http://localhost:5173/session/k7f2m9qa/admin?token=tok" ] ∧
  "  Admin URL:   " +:+ admin_link_of "/" "k7f2m9qa" "tok"
  = "  Admin URL:   //session/k7f2m9qa/admin?token=tok" ∧
  "  Admin URL:   " +:+
    admin_link_of (norm_frontend_url (ex_args_frontend (Some "/"))) "k7f2m9qa" "tok"
  = "  Admin URL:   /session/k7f2m9qa/admin?token=tok".
Proof. by vm_compute. Qed.

(** X19.  The missing admin token is tolerated in one case only: when
    the frontend URL in effect is empty (as with [--frontend-url /]).  Take
    a creation reply that carries a session id, a student URL and an admin
    URL but no admin token, and a run that would go through (the random
    generator keeps supplying unused names, the pause does not fail).  With
    an empty frontend URL [create_session] prints the admin URL the backend
    sent and never reads the token: the session is created, the [count]
    submissions are made and the last line is the placeholder link.  With
    any other frontend URL the run ends with KeyError on the token, after
    the "Student URL" line and before any submission. *)
Theorem missing_token_tolerated_without_frontend (budget : nat) (a : args) (w : world)
    (code : Z) (txt : string) (data : gmap string string) (sid student_url url : string) :
  opt_truthy (session_id a) = false →
  backend w 0 (create_request a) = Response code txt (Json data) →
  is_success code = true →
  data !! "session_id" = Some sid →
  data !! "student_url" = Some student_url →
  data !! "admin_url" = Some url →
  data !! "admin_token" = None →
  supplies_fresh budget (Z.to_nat (count a)) w →
  pause_elapses a w →
  if Str.truthy (norm_frontend_url a) then
    run budget a w
    = (Raise (Exception "KeyError" "'admin_token'"),
       [ Sent (create_request a);
         Printed ("Created session: " +:+ sid);
         Printed ("  Student URL: " +:+ student_url) ])
  else
    ∃ body,
      run budget a w
      = (Ret tt,
         [ Sent (create_request a);
           Printed ("Created session: " +:+ sid);
           Printed ("  Student URL: " +:+ student_url);
           Printed ("  Admin URL:   " +:+ url) ]
         ++ body ++
         [ Printed done_line;
           Printed ("  /session/" +:+ sid +:+ "/admin?token=<your-admin-token>") ]) ∧
      submissions body = Z.to_nat (count a).
Proof.
  intros Hpath Hreply Hcode Hsid Hurl Hadmin Htok Hsup Hclock.
  pose proof (create_path_spec a w (PState 0 0) code txt data sid student_url
                Hpath Hreply Hcode Hsid Hurl) as E.
  rewrite Hadmin, Htok in E. cbv zeta in E.
  destruct (Str.truthy (norm_frontend_url a)) eqn:Hf.
  - unfold run. by rewrite main_unfold, E.
  - cbn [default from_option id Str.truthy] in E.
    destruct (run_with_session budget a w _ _ _ Hsup Hclock E) as (body & -> & Hsub).
    exists body. split; [|done].
    unfold link_line. cbn [ses_admin_url opt_truthy ses_id].
    by destruct (norm_frontend_url a).
Qed.

Lemma missing_token_tolerated_without_frontend_witness :
  (∃ body,
     run 2 (ex_args_frontend (Some "/")) ex_world_no_token
     = (Ret tt,
        [ Sent (create_request (ex_args_frontend (Some "/")));
          Printed "Created session: k7f2m9qa";
          Printed "  Student URL: http://localhost:5173/session/k7f2m9qa";
          Printed "  Admin URL:   http://localhost:5173/session/k7f2m9qa/admin?token=tok" ]
        ++ body ++
        [ Printed done_line;
          Printed "  /session/k7f2m9qa/admin?token=<your-admin-token>" ]) ∧
     submissions body = 3%nat) ∧
  run 2 (ex_args_frontend (Some "http://localhost:5173/")) ex_world_no_token
  = (Raise (Exception "KeyError" "'admin_token'"),
     [ Sent (create_request (ex_args_frontend (Some "http://localhost:5173/")));
       Printed "Created session: k7f2m9qa";
       Printed "  Student URL: http://localhost:5173/session/k7f2m9qa" ]).
Proof.
  assert (supplies_fresh 2 3 ex_world_no_token) as Hsup
    by (apply (supplies_fresh_tape 2 3 ex_world); [done|apply ex_world_supplies_fresh]).
  split.
  - exact (missing_token_tolerated_without_frontend 2 (ex_args_frontend (Some "/"))
             ex_world_no_token 200 "" (delete "admin_token" ex_session_info)
             "k7f2m9qa" "http://localhost:5173/session/k7f2m9qa"
             "http://localhost:5173/session/k7f2m9qa/admin?token=tok"
             eq_refl eq_refl eq_refl eq_refl eq_refl eq_refl eq_refl Hsup (λ _, eq_refl)).
  - exact (missing_token_tolerated_without_frontend 2
             (ex_args_frontend (Some "http://localhost:5173/"))
             ex_world_no_token 200 "" (delete "admin_token" ex_session_info)
             "k7f2m9qa" "http://localhost:5173/session/k7f2m9qa"
             "http://localhost:5173/session/k7f2m9qa/admin?token=tok"
             eq_refl eq_refl eq_refl eq_refl eq_refl eq_refl eq_refl Hsup (λ _, eq_refl)).
Defined.

(** X20.  A creation reply that lacks the session id or the student URL
    ends the run with the KeyError of the first field missing: before
    anything is printed when it is the session id, after the "Created
    session" line when it is the student URL.  No submission is made. *)
Theorem creation_reply_missing_field (budget : nat) (a : args) (w : world)
    (code : Z) (txt : string) (data : gmap string string) :
  opt_truthy (session_id a) = false →
  backend w 0 (create_request a) = Response code txt (Json data) →
  is_success code = true →
  data !! "session_id" = None ∨ data !! "student_url" = None →
  run budget a w
  = match data !! "session_id" with
    | None =>
        (Raise (Exception "KeyError" "'session_id'"), [Sent (create_request a)])
    | Some sid =>
        (Raise (Exception "KeyError" "'student_url'"),
         [Sent (create_request a); Printed ("Created session: " +:+ sid)])
    end.
Proof.
  intros Hpath Hreply Hcode Hmiss.
  unfold run. rewrite main_unfold. session_unfold. rewrite Hpath.
  fold (create_request a). mstep. rewrite Hreply. mstep. rewrite Hcode. mstep.
  destruct (data !! "session_id") as [sid|] eqn:Hsid; mstep; [|done].
  destruct Hmiss as [|Hurl]; [done|]. rewrite Hurl. by mstep.
Qed.

Lemma creation_reply_missing_field_witness :
  run 2 ex_args ex_world_no_student_url
  = (Raise (Exception "KeyError" "'student_url'"),
     [Sent (create_request ex_args); Printed "Created session: k7f2m9qa"]).
Proof.
  exact (creation_reply_missing_field 2 ex_args ex_world_no_student_url 200 ""
           (delete "student_url" ex_session_info) eq_refl eq_refl eq_refl
           (or_intror eq_refl)).
Defined.

(** ** The URLs in effect *)

Lemma rstrip_last p s c : last_char (Str.rstrip p s) = Some c → p c = false.
Proof.
  induction s as [|c0 s IH]; [done|].
  simpl. destruct (Str.rstrip p s) as [|c1 r] eqn:E.
  - destruct (p c0) eqn:Hc; [done|]. simpl. by intros [= <-].
  - intros H. apply IH. exact H.
Qed.

(** X21.  The base URL and the frontend URL in effect are the configured
    ones (the base URL standing in for a frontend URL that is not given)
    without their trailing slashes: what was removed is made of "/" only,
    and what is left does not end with "/", so that no URL the script
    builds has "//" where the path is appended. *)
Theorem urls_in_effect (a : args) :
  (∃ dropped,
     base_url a = norm_base_url a +:+ dropped ∧
     ∀ c, c ∈ String.list_ascii_of_string dropped → c = "/"%char) ∧
  (∃ dropped,
     (if opt_truthy (frontend_url a) then default "" (frontend_url a) else norm_base_url a)
     = norm_frontend_url a +:+ dropped ∧
     ∀ c, c ∈ String.list_ascii_of_string dropped → c = "/"%char) ∧
  last_char (norm_base_url a) ≠ Some "/"%char ∧
  last_char (norm_frontend_url a) ≠ Some "/"%char.
Proof.
  assert (∀ c, Str.is_slash c = true → c = "/"%char) as Hslash
    by (intros c; unfold Str.is_slash; apply bool_decide_eq_true).
  split_and!.
  - destruct (rstrip_spec Str.is_slash (base_url a)) as (dropped & Hs & Hd & _).
    exists dropped. split; [done|]. intros c Hc. by apply Hslash, Hd.
  - unfold norm_frontend_url.
    destruct (rstrip_spec Str.is_slash
                (if opt_truthy (frontend_url a) then default "" (frontend_url a)
                 else norm_base_url a)) as (dropped & Hs & Hd & _).
    exists dropped. split; [done|]. intros c Hc. by apply Hslash, Hd.
  - intros H%rstrip_last. done.
  - intros H%rstrip_last. done.
Qed.
